(** * PrayTimes: a shallow embedding of [src/Pages/PrayerTimesTamilNadu.py]

    The Python class [PrayTimes] is embedded as Rocq functions over
    - IEEE-754 binary64 numbers (Rocq's primitive [float], the same format
      and rounding as a CPython [float]),
    - unbounded integers [Z] for Python [int],
    - [string] for [str], [gmap string _] for the dictionaries that are only
      looked up by key, association lists where insertion order is observed,
    - an error monad [result] for raised exceptions, with the store threaded
      explicitly through the methods that assign attributes or mutate the
      class-level dictionaries.

    Part I holds the definitions, Part II the theorems. *)

From Stdlib Require Import ZArith Floats List Ascii String Bool Lia.
From stdpp Require Import base option gmap strings list fin_maps pretty.

Set Warnings "-inexact-float".
Local Open Scope string_scope.
Local Open Scope Z_scope.

(* ===================================================================== *)
(** * Part I.a  The Python runtime the class relies on                    *)
(* ===================================================================== *)

Module Py.

(** Exceptions the modelled code can raise. *)
Inductive exn : Set :=
| AttributeError | IndexError | KeyError | OverflowError
| TypeError | ValueError | ZeroDivisionError.

(** A computation either returns a value or raises. *)
Inductive result (A : Type) : Type :=
| Ok (a : A)
| Raise (e : exn).
Arguments Ok {A} a.
Arguments Raise {A} e.

#[export] Instance result_ret : MRet result := fun _ a => Ok a.
#[export] Instance result_bind : MBind result := fun _ _ f m =>
  match m with Ok a => f a | Raise e => Raise e end.
#[export] Instance result_fmap : FMap result := fun _ _ f m =>
  match m with Ok a => Ok (f a) | Raise e => Raise e end.

Definition returns {A} (m : result A) : Prop := exists a, m = Ok a.

(** [try: ... except ValueError: handler]. *)
Definition except_ValueError {A} (body : result A) (handler : A) : result A :=
  match body with
  | Raise ValueError => Ok handler
  | r => r
  end.

(** Values stored in the settings / offset dictionaries. *)
Inductive pyval : Set :=
| PyNone
| PyInt (z : Z)
| PyFloat (f : float)
| PyStr (s : string).

(** ** Floats *)

Definition nan : float := PrimFloat.nan.
Definition math_isnan (x : float) : bool := PrimFloat.is_nan x.
Definition math_isinf (x : float) : bool := PrimFloat.is_infinity x.

(** [int -> float] conversion, round-half-even; [OverflowError] when the
    integer is too large for a float. *)
Definition SF_of_Z (z : Z) : spec_float := binary_normalize prec emax z 0 false.

Definition float_of_int (z : Z) : result float :=
  let f := SF2Prim (SF_of_Z z) in
  if math_isinf f then Raise OverflowError else Ok f.

(** [int / int] (true division): the correctly rounded quotient. *)
Definition SF_of_int (z : Z) : spec_float :=
  match z with
  | Z0 => S754_zero false
  | Zpos p => S754_finite false p 0
  | Zneg p => S754_finite true p 0
  end.

Definition int_truediv (a b : Z) : result float :=
  if b =? 0 then Raise ZeroDivisionError
  else
    let f := SF2Prim (SFdiv prec emax (SF_of_int a) (SF_of_int b)) in
    if math_isinf f then Raise OverflowError else Ok f.

(** [float / float]: Python raises on a zero divisor. *)
Definition truediv (a b : float) : result float :=
  if (b =? 0)%float then Raise ZeroDivisionError else Ok (a / b)%float.

(** [math.floor] of a float, an [int]. *)
Definition SF_floor (x : spec_float) : result Z :=
  match x with
  | S754_zero _ => Ok 0
  | S754_finite s m e =>
      let n := if s then Zneg m else Zpos m in
      Ok (if 0 <=? e then n * 2 ^ e else n `div` 2 ^ (- e))
  | S754_infinity _ => Raise OverflowError
  | S754_nan => Raise ValueError
  end.

Definition math_floor (x : float) : result Z := SF_floor (Prim2SF x).

(** [math.sqrt]: a domain error when the result is NaN for a non-NaN
    argument. *)
Definition math_sqrt (x : float) : result float :=
  let r := PrimFloat.sqrt x in
  if math_isnan r && negb (math_isnan x) then Raise ValueError else Ok r.

(** [math.radians], [math.degrees]: one multiplication by a constant. *)
Definition pi : float := 0x1.921fb54442d18p+1%float.
Definition degToRad : float := Eval cbv in (pi / 180)%float.
Definition radToDeg : float := Eval cbv in (180 / pi)%float.
Definition math_radians (d : float) : float := (d * degToRad)%float.
Definition math_degrees (r : float) : float := (r * radToDeg)%float.

(** The transcendental functions of [math] are not computed here: the
    solver is parameterised by them.  Each may raise (a domain error is a
    [ValueError]). *)
Record Libm : Type := {
  math_sin : float -> result float;
  math_cos : float -> result float;
  math_tan : float -> result float;
  math_asin : float -> result float;
  math_acos : float -> result float;
  math_atan : float -> result float;
  math_atan2 : float -> float -> result float
}.

(** ** Strings *)

Definition is_digit (c : ascii) : bool :=
  let n := N_of_ascii c in (48 <=? n)%N && (n <=? 57)%N.

Definition digit_val (c : ascii) : Z := Z.of_N (N_of_ascii c) - 48.

(** [str(int)]. *)
Definition str_of_int (z : Z) : string := pretty z.

Fixpoint zeros (n : nat) : string :=
  match n with O => "" | S n => String "0" (zeros n) end.

(** ["%d" % z] and ["%02d" % z]. *)
Definition fmt_d (z : Z) : string := str_of_int z.
Definition fmt_02d (z : Z) : string :=
  if z <? 0 then "-" ++ zeros (2 - 1 - String.length (pretty (Z.abs z))) ++ pretty (Z.abs z)
  else zeros (2 - String.length (pretty z)) ++ pretty z.

(** [s.find(sub) > -1]. *)
Definition contains (sub s : string) : bool :=
  match String.index 0 sub s with Some _ => true | None => false end.

(** ** Decimal literals: [float(str)] on a string over [0-9.+-] *)

(** The digits of a run, most significant first, as an integer. *)
Fixpoint digits_val (acc : Z) (s : string) : Z :=
  match s with
  | EmptyString => acc
  | String c s' => digits_val (10 * acc + digit_val c) s'
  end.

Fixpoint span_digits (s : string) : string * string :=
  match s with
  | String c s' =>
      if is_digit c then let '(d, r) := span_digits s' in (String c d, r)
      else (EmptyString, s)
  | EmptyString => (EmptyString, EmptyString)
  end.

(** A decimal number [(-1)^neg * mant / 10^scale], correctly rounded. *)
Definition SF_of_decimal (neg : bool) (mant : Z) (scale : nat) : spec_float :=
  match mant with
  | Zpos p => SFdiv prec emax (S754_finite neg p 0) (SF_of_int (10 ^ Z.of_nat scale))
  | _ => S754_zero neg
  end.

Definition float_of_decimal (neg : bool) (mant : Z) (scale : nat) : float :=
  SF2Prim (SF_of_decimal neg mant scale).

(** [float(s)]: an optional sign, then digits with an optional point; at
    least one digit; anything else is a [ValueError].  (Exponents, [inf],
    [nan], blanks and underscores are not modelled: [eval] never passes
    them.) *)
Definition float_of_str (s : string) : result float :=
  let '(neg, body) :=
    match s with
    | String "-" r => (true, r)
    | String "+" r => (false, r)
    | _ => (false, s)
    end in
  let '(ip, rest) := span_digits body in
  let '(fp, rest') :=
    match rest with
    | String "." r => span_digits r
    | _ => (EmptyString, rest)
    end in
  match rest', (String.length ip + String.length fp)%nat with
  | EmptyString, S _ =>
      Ok (float_of_decimal neg (digits_val 0 (ip ++ fp)) (String.length fp))
  | _, _ => Raise ValueError
  end.

(** ** [repr(float)]: the shortest decimal string that reads back as the
    same float, in the layout of CPython's ['r'] format. *)

(** Drop trailing zeros of a positive integer, counting them. *)
Fixpoint strip_zeros (fuel : nat) (c : Z) (dropped : Z) : Z * Z :=
  match fuel with
  | O => (c, dropped)
  | S fuel' =>
      if (c `mod` 10 =? 0) && negb (c =? 0)
      then strip_zeros fuel' (c `div` 10) (dropped + 1)
      else (c, dropped)
  end.

(** The float is [num/den > 0]; [decpt] is the least [E] with
    [num/den < 10^E], searched upwards from an under-estimate. *)
Definition lt_pow10 (num den E : Z) : bool :=
  if 0 <=? E then num <? den * 10 ^ E else num * 10 ^ (- E) <? den.

Fixpoint find_decpt (fuel : nat) (num den E : Z) : Z :=
  match fuel with
  | O => E
  | S fuel' => if lt_pow10 num den E then E else find_decpt fuel' num den (E + 1)
  end.

(** With [n] significant digits: the two neighbours of [num/den] on the
    grid [10^(E-n)], whichever reads back as the float and is nearer. *)
Definition candidate (s : bool) (m : positive) (e : Z) (num den E : Z) (n : Z)
  : option (Z * Z) :=
  let k := n - E in
  let '(sn, sd) := if 0 <=? k then (num * 10 ^ k, den) else (num, den * 10 ^ (- k)) in
  let lo := sn `div` sd in
  let hi := lo + 1 in
  let reads_back (c : Z) : bool :=
    let sf := if 0 <=? k
              then SF_of_decimal s c (Z.to_nat k)
              else SF_of_Z ((if s then - c else c) * 10 ^ (- k)) in
    match sf with
    | S754_finite s' m' e' => Bool.eqb s s' && (m' =? m)%positive && (e' =? e)
    | _ => false
    end in
  let dlo := 2 * (sn - lo * sd) in   (* twice the distance to lo, times sd *)
  let pick :=
    match reads_back lo, reads_back hi with
    | true, true =>
        if dlo <? sd then Some lo
        else if sd <? dlo then Some hi
        else Some (if Z.even lo then lo else hi)
    | true, false => Some lo
    | false, true => Some hi
    | false, false => None
    end in
  match pick with
  | Some c => let '(c', z) := strip_zeros 400 c 0 in
              Some (c', Z.of_nat (String.length (pretty c')) + z - k)
  | None => None
  end.

Fixpoint shortest (fuel : nat) (s : bool) (m : positive) (e : Z) (num den E : Z) (n : Z)
  : Z * Z :=
  match fuel with
  | O => (0, 0)
  | S fuel' =>
      match candidate s m e num den E n with
      | Some r => r
      | None => shortest fuel' s m e num den E (n + 1)
      end
  end.

Definition exp_digits (x : Z) : string :=
  (if x <? 0 then "-" else "+") ++ fmt_02d (Z.abs x).

Definition repr_layout (digits : string) (decpt : Z) : string :=
  let nd := Z.of_nat (String.length digits) in
  if (-4 <? decpt) && (decpt <=? 16) then
    if decpt <=? 0 then "0." ++ zeros (Z.to_nat (- decpt)) ++ digits
    else if nd <=? decpt then digits ++ zeros (Z.to_nat (decpt - nd)) ++ ".0"
    else substring 0 (Z.to_nat decpt) digits ++ "." ++
         substring (Z.to_nat decpt) (Z.to_nat (nd - decpt)) digits
  else
    substring 0 1 digits ++
    (if 1 <? nd then "." ++ substring 1 (Z.to_nat (nd - 1)) digits else "") ++
    "e" ++ exp_digits (decpt - 1).

Definition float_repr (f : float) : string :=
  match Prim2SF f with
  | S754_nan => "nan"
  | S754_infinity s => if s then "-inf" else "inf"
  | S754_zero s => if s then "-0.0" else "0.0"
  | S754_finite s m e =>
      let '(num, den) := if 0 <=? e then (Zpos m * 2 ^ e, 1) else (Zpos m, 2 ^ (- e)) in
      let E0 := ((Zpos (digits2_pos m) + e - 1) * 30102) `div` 100000 - 1 in
      let E := find_decpt 8 num den E0 in
      let '(c, decpt) := shortest 17 s m e num den E 1 in
      (if s then "-" else "") ++ repr_layout (pretty c) decpt
  end.

(** [str(v)]. *)
Definition str (v : pyval) : string :=
  match v with
  | PyNone => "None"
  | PyInt z => str_of_int z
  | PyFloat f => float_repr f
  | PyStr s => s
  end.

End Py.

(* ===================================================================== *)
(** * Part I.b  The class [PrayTimes]                                      *)
(* ===================================================================== *)

Module PrayTimes.
Import Py.

(** ** The store *)

(** One entry of the [methods] table: [{'name': ..., 'params': {...}}]. *)
Record Method : Type := {
  name : string;
  params : gmap string pyval
}.

(** The mutable dictionaries of the class body.  They are class
    attributes: there is one of each, and every instance reaches the same
    three objects through [self.methods], [self.settings], [self.offset].
    [methods] keeps its insertion order, which [__init__] observes. *)
Record Class : Type := {
  methods : list (string * Method);
  settings : gmap string pyval;
  offset : gmap string pyval
}.

(** The attributes assigned on an instance ([self.x = ...]).  [calcMethod]
    and [timeFormat] start from the class defaults; the other five do not
    exist until [getTimes] assigns them. *)
Record Self : Type := {
  calcMethod : string;
  timeFormat : string;
  lat : option float;
  lng : option float;
  elv : option float;
  timeZone : option float;
  jDate : option float
}.

(** What a method sees as [self]: the shared class dictionaries and the
    instance's own attributes. *)
Definition Obj : Type := Class * Self.

(** A method that may assign attributes or mutate the dictionaries.  An
    exception keeps the store as it was when it was raised. *)
Definition M (A : Type) : Type := Obj -> result A * Obj.

#[export] Instance M_ret : MRet M := fun _ a o => (Ok a, o).
#[export] Instance M_bind : MBind M := fun _ _ f m o =>
  match m o with
  | (Ok a, o') => f a o'
  | (Raise e, o') => (Raise e, o')
  end.

Definition lift {A} (r : result A) : M A := fun o => (r, o).
Definition get : M Obj := fun o => (Ok o, o).
Definition modify_class (f : Class -> Class) : M unit := fun o => (Ok tt, (f o.1, o.2)).
Definition modify_self (f : Self -> Self) : M unit := fun o => (Ok tt, (o.1, f o.2)).

Definition set_methods (ms : list (string * Method)) (c : Class) : Class :=
  {| methods := ms; settings := settings c; offset := offset c |}.
Definition set_settings (d : gmap string pyval) (c : Class) : Class :=
  {| methods := methods c; settings := d; offset := offset c |}.
Definition set_offset (d : gmap string pyval) (c : Class) : Class :=
  {| methods := methods c; settings := settings c; offset := d |}.

Definition set_calcMethod (v : string) (s : Self) : Self :=
  {| calcMethod := v; timeFormat := timeFormat s; lat := lat s; lng := lng s;
     elv := elv s; timeZone := timeZone s; jDate := jDate s |}.
Definition set_timeFormat (v : string) (s : Self) : Self :=
  {| calcMethod := calcMethod s; timeFormat := v; lat := lat s; lng := lng s;
     elv := elv s; timeZone := timeZone s; jDate := jDate s |}.
Definition set_lat (v : float) (s : Self) : Self :=
  {| calcMethod := calcMethod s; timeFormat := timeFormat s; lat := Some v; lng := lng s;
     elv := elv s; timeZone := timeZone s; jDate := jDate s |}.
Definition set_lng (v : float) (s : Self) : Self :=
  {| calcMethod := calcMethod s; timeFormat := timeFormat s; lat := lat s; lng := Some v;
     elv := elv s; timeZone := timeZone s; jDate := jDate s |}.
Definition set_elv (v : float) (s : Self) : Self :=
  {| calcMethod := calcMethod s; timeFormat := timeFormat s; lat := lat s; lng := lng s;
     elv := Some v; timeZone := timeZone s; jDate := jDate s |}.
Definition set_timeZone (v : float) (s : Self) : Self :=
  {| calcMethod := calcMethod s; timeFormat := timeFormat s; lat := lat s; lng := lng s;
     elv := elv s; timeZone := Some v; jDate := jDate s |}.
Definition set_jDate (v : float) (s : Self) : Self :=
  {| calcMethod := calcMethod s; timeFormat := timeFormat s; lat := lat s; lng := lng s;
     elv := elv s; timeZone := timeZone s; jDate := Some v |}.

(** Reading an attribute that only [getTimes] assigns. *)
Definition attr (a : option float) : result float :=
  match a with Some v => Ok v | None => Raise AttributeError end.

(** [d[k]]. *)
Definition getitem {V} (d : gmap string V) (k : string) : result V :=
  match d !! k with Some v => Ok v | None => Raise KeyError end.

(** [v == s] for a string literal [s]. *)
Definition eq_str (v : pyval) (s : string) : bool :=
  match v with PyStr t => String.eqb t s | _ => false end.

(** ** Constants of the class body *)

Definition timeNames : list (string * string) :=
  [ ("imsak", "Imsak"); ("fajr", "Fajr"); ("sunrise", "Sunrise");
    ("dhuhr", "Dhuhr"); ("asr", "Asr"); ("sunset", "Sunset");
    ("maghrib", "Maghrib"); ("isha", "Isha"); ("midnight", "Midnight") ].

Definition methods0 : list (string * Method) :=
  [ ("MWL", {| name := "Muslim World League";
               params := {[ "fajr" := PyInt 18; "isha" := PyInt 17 ]} |});
    ("ISNA", {| name := "Islamic Society of North America (ISNA)";
                params := {[ "fajr" := PyInt 15; "isha" := PyInt 15 ]} |});
    ("Egypt", {| name := "Egyptian General Authority of Survey";
                 params := {[ "fajr" := PyFloat 19.5; "isha" := PyFloat 17.5 ]} |});
    ("Makkah", {| name := "Umm Al-Qura University, Makkah";
                  params := {[ "fajr" := PyFloat 18.5; "isha" := PyStr "90 min" ]} |});
    ("Karachi", {| name := "University of Islamic Sciences, Karachi";
                   params := {[ "fajr" := PyInt 18; "isha" := PyInt 18 ]} |});
    ("Tehran", {| name := "Institute of Geophysics, University of Tehran";
                  params := {[ "fajr" := PyFloat 17.7; "isha" := PyInt 14;
                               "maghrib" := PyFloat 4.5; "midnight" := PyStr "Jafari" ]} |});
    ("Jafari", {| name := "Shia Ithna-Ashari, Leva Institute, Qum";
                  params := {[ "fajr" := PyInt 16; "isha" := PyInt 14;
                               "maghrib" := PyInt 4; "midnight" := PyStr "Jafari" ]} |});
    ("TN", {| name := "Tamil Nadu";
              params := {[ "fajr" := PyInt 18; "isha" := PyInt 18 ]} |}) ].

Definition defaultParams : list (string * pyval) :=
  [ ("maghrib", PyStr "0 min"); ("midnight", PyStr "Standard") ].

Definition settings0 : gmap string pyval :=
  {[ "imsak" := PyStr "20 min"; "dhuhr" := PyStr "15 min";
     "asr" := PyStr "Standard"; "highLats" := PyStr "NightMiddle" ]}.

Definition timeSuffixes : list string := [ "am"; "pm" ].
Definition invalidTime : string := "-----".
Definition numIterations : nat := 1.

(** The class as the class body leaves it, and a fresh instance, whose
    [calcMethod] and [timeFormat] read through to ['MWL'] and ['24h']. *)
Definition class0 : Class :=
  {| methods := methods0; settings := settings0; offset := ∅ |}.

Definition fresh : Self :=
  {| calcMethod := "MWL"; timeFormat := "24h"; lat := None; lng := None;
     elv := None; timeZone := None; jDate := None |}.

(** ** Initialization *)

(** The inner loop of [__init__]: fill in a default where the parameter
    is missing or [None]. *)
Definition fill_defaults (p : gmap string pyval) : gmap string pyval :=
  foldl (fun p '(name, value) =>
           match p !! name with
           | None | Some PyNone => <[name := value]> p
           | Some _ => p
           end) p defaultParams.

(** The outer loop, [for method, config in self.methods.items()].  Its
    target [method] is the very variable that holds the argument, so the
    loop state is that variable together with the table being updated. *)
Definition init_methods (method : string) (ms : list (string * Method))
  : string * list (string * Method) :=
  foldl (fun '(_, acc) '(key, config) =>
           (key, (acc ++ [(key, {| name := name config;
                                   params := fill_defaults (params config) |})])%list))
        (method, []) ms.

Definition in_methods (method : string) (ms : list (string * Method)) : bool :=
  bool_decide (method ∈ ms.*1).

Definition methods_getitem (ms : list (string * Method)) (method : string) : result Method :=
  match list_find (fun kv => kv.1 = method) ms with
  | Some (_, (_, config)) => Ok config
  | None => Raise KeyError
  end.

(** [for name, value in params.items(): d[name] = value]. *)
Definition assign_items (p d : gmap string pyval) : gmap string pyval :=
  map_fold (fun name value d => <[name := value]> d) d p.

Definition init (method : string) : M unit :=
  o ← get;
  let '(method, ms) := init_methods method (methods o.1) in
  modify_class (set_methods ms);;
  modify_self (set_calcMethod (if in_methods method ms then method else "MWL"));;
  o ← get;
  config ← lift (methods_getitem (methods o.1) (calcMethod o.2));
  modify_class (fun c => set_settings (assign_items (params config) (settings c)) c);;
  modify_class (fun c =>
    set_offset (foldl (fun d name => <[name := PyInt 0]> d) (offset c) timeNames.*1) c).

(** ** Interface functions *)

(** [self.<attribute>.update(arg)].  Attribute lookup goes by name: the
    class has the two dictionaries [settings] and [offset] to update; the
    names the methods below pass are ['settings'] and ['offsets'], and a
    name that neither the class body nor any method defines is an
    [AttributeError]. *)
Definition update_attr (attribute : string) (arg : gmap string pyval) : M unit :=
  fun o =>
    if String.eqb attribute "settings" then
      (Ok tt, (set_settings (arg ∪ settings o.1) o.1, o.2))
    else if String.eqb attribute "offset" then
      (Ok tt, (set_offset (arg ∪ offset o.1) o.1, o.2))
    else (Raise AttributeError, o).

Definition adjust (params : gmap string pyval) : M unit :=
  update_attr "settings" params.

Definition setMethod (method : string) : M unit :=
  o ← get;
  if in_methods method (methods o.1) then
    config ← lift (methods_getitem (methods o.1) method);
    adjust (params config);;
    modify_self (set_calcMethod method)
  else mret tt.

Definition tune (timeOffsets : gmap string pyval) : M unit :=
  update_attr "offsets" timeOffsets.

Definition getMethod (o : Obj) : string := calcMethod o.2.
Definition getSettings (o : Obj) : gmap string pyval := settings o.1.
Definition getOffsets (o : Obj) : gmap string pyval := offset o.1.
Definition getDefaults (o : Obj) : list (string * Method) := methods o.1.

(** ** Misc functions *)

(** [re.split('[^0-9.+-]', s, 1)[0]]: the run of characters up to the
    first one that is not a digit, a point or a sign. *)
Definition numeric_char (c : ascii) : bool :=
  is_digit c || Ascii.eqb c "." || Ascii.eqb c "+" || Ascii.eqb c "-".

Fixpoint leading_token (s : string) : string :=
  match s with
  | String c s' => if numeric_char c then String c (leading_token s') else EmptyString
  | EmptyString => EmptyString
  end.

(** [eval]: convert given string into a number.  The [0] of the empty
    token is an [int]; every use of the result is float arithmetic, where
    it is [0.0]. *)
Definition eval (st : pyval) : result float :=
  let val := leading_token (str st) in
  if String.eqb val "" then Ok 0%float else float_of_str val.

(** [isMin]: detect if input contains 'min'. *)
Definition isMin (arg : pyval) : bool :=
  match arg with
  | PyStr s => contains "min" s
  | _ => false
  end.

(** [fix] (a reserved word here, hence the underscore). *)
Definition fix_ (a mode : float) : result float :=
  if math_isnan a then Ok a
  else
    q ← truediv a mode;
    n ← math_floor q;
    k ← float_of_int n;
    let a := (a - mode * k)%float in
    Ok (if (a <? 0)%float then (a + mode)%float else a).

Definition fixangle (angle : float) : result float := fix_ angle 360.
Definition fixhour (hour : float) : result float := fix_ hour 24.

(** [timeDiff]: the difference between two times. *)
Definition timeDiff (time1 time2 : float) : result float :=
  fixhour (time2 - time1).

(** ** Formatting *)

(** A formatted time: a string, or the number itself under ['Float']. *)
Inductive fmtval : Type :=
| FStr (s : string)
| FNum (f : float).

Definition getFormattedTime (time : float) (format : string)
    (suffixes : option (list string)) : result fmtval :=
  if math_isnan time then Ok (FStr invalidTime)
  else if String.eqb format "Float" then Ok (FNum time)
  else
    let suffixes := match suffixes with None => timeSuffixes | Some l => l end in
    time ← fixhour (time + 0.5 / 60);
    hours ← math_floor time;
    fh ← float_of_int hours;
    minutes ← math_floor ((time - fh) * 60);
    suffix ←
      (if String.eqb format "12h"
       then match suffixes !! (if hours <? 12 then 0%nat else 1%nat) with
            | Some sfx => Ok sfx
            | None => Raise IndexError
            end
       else Ok "");
    let formattedTime :=
      if String.eqb format "24h"
      then fmt_02d hours ++ ":" ++ fmt_02d minutes
      else fmt_d ((hours + 11) `mod` 12 + 1) ++ ":" ++ fmt_02d minutes in
    Ok (FStr (formattedTime ++ suffix)).

(** ** Julian date *)

Definition julian (year month day : Z) : result float :=
  let '(year, month) := if month <=? 2 then (year - 1, month + 12) else (year, month) in
  A ← int_truediv year 100 ≫= math_floor;
  q ← int_truediv A 4 ≫= math_floor;
  let B := 2 - A + q in
  y ← float_of_int (year + 4716);
  d1 ← math_floor (365.25 * y);
  m ← float_of_int (month + 1);
  d2 ← math_floor (30.6001 * m);
  n ← float_of_int (d1 + d2 + day + B);
  Ok (n - 1524.5)%float.

(** ** The event times of one day

    The dictionary [times] always carries the eight keys of the literal in
    [computeTimes]; [midnight] is the ninth, added late. *)
Record Times (A : Type) : Type := {
  imsak : A; fajr : A; sunrise : A; dhuhr : A;
  asr : A; sunset : A; maghrib : A; isha : A;
  midnight : option A
}.
Arguments imsak {A} _.
Arguments fajr {A} _.
Arguments sunrise {A} _.
Arguments dhuhr {A} _.
Arguments asr {A} _.
Arguments sunset {A} _.
Arguments maghrib {A} _.
Arguments isha {A} _.
Arguments midnight {A} _.

(** [for k in times: times[k] = f(times[k])]. *)
Definition map_times {A B} (f : A -> B) (t : Times A) : Times B :=
  {| imsak := f (imsak t); fajr := f (fajr t); sunrise := f (sunrise t);
     dhuhr := f (dhuhr t); asr := f (asr t); sunset := f (sunset t);
     maghrib := f (maghrib t); isha := f (isha t);
     midnight := f <$> midnight t |}.

Definition set_imsak {A} (v : A) (t : Times A) : Times A :=
  {| imsak := v; fajr := fajr t; sunrise := sunrise t; dhuhr := dhuhr t; asr := asr t;
     sunset := sunset t; maghrib := maghrib t; isha := isha t; midnight := midnight t |}.
Definition set_fajr {A} (v : A) (t : Times A) : Times A :=
  {| imsak := imsak t; fajr := v; sunrise := sunrise t; dhuhr := dhuhr t; asr := asr t;
     sunset := sunset t; maghrib := maghrib t; isha := isha t; midnight := midnight t |}.
Definition set_dhuhr {A} (v : A) (t : Times A) : Times A :=
  {| imsak := imsak t; fajr := fajr t; sunrise := sunrise t; dhuhr := v; asr := asr t;
     sunset := sunset t; maghrib := maghrib t; isha := isha t; midnight := midnight t |}.
Definition set_maghrib {A} (v : A) (t : Times A) : Times A :=
  {| imsak := imsak t; fajr := fajr t; sunrise := sunrise t; dhuhr := dhuhr t; asr := asr t;
     sunset := sunset t; maghrib := v; isha := isha t; midnight := midnight t |}.
Definition set_isha {A} (v : A) (t : Times A) : Times A :=
  {| imsak := imsak t; fajr := fajr t; sunrise := sunrise t; dhuhr := dhuhr t; asr := asr t;
     sunset := sunset t; maghrib := maghrib t; isha := v; midnight := midnight t |}.
Definition set_midnight {A} (v : A) (t : Times A) : Times A :=
  {| imsak := imsak t; fajr := fajr t; sunrise := sunrise t; dhuhr := dhuhr t; asr := asr t;
     sunset := sunset t; maghrib := maghrib t; isha := isha t; midnight := Some v |}.

(** [dayPortion]: convert hours to day portions. *)
Definition dayPortion (times : Times float) : Times float :=
  map_times (fun v => v / 24)%float times.

(** ** High latitudes *)

(** [nightPortion]: the night portion used for adjusting times in higher
    latitudes. *)
Definition nightPortion (self : Obj) (angle night : float) : result float :=
  method ← getitem (settings self.1) "highLats";
  let portion := (1 / 2)%float in
  let portion := if eq_str method "AngleBased" then (1 / 60 * angle)%float else portion in
  let portion := if eq_str method "OneSeventh" then (1 / 7)%float else portion in
  Ok (portion * night)%float.

Definition is_ccw (direction : option string) : bool :=
  match direction with Some d => String.eqb d "ccw" | None => false end.

(** [adjustHLTime]: adjust a time for higher latitudes. *)
Definition adjustHLTime (self : Obj) (time base angle night : float)
    (direction : option string) : result float :=
  portion ← nightPortion self angle night;
  diff ← (if is_ccw direction then timeDiff time base else timeDiff base time);
  Ok (if math_isnan time || (portion <? diff)%float
      then (base + (if is_ccw direction then - portion else portion))%float
      else time).

(** [adjustHighLats]: adjust times for locations in higher latitudes. *)
Definition adjustHighLats (self : Obj) (times : Times float) : result (Times float) :=
  let params := settings self.1 in
  nightTime ← timeDiff (sunset times) (sunrise times);
  a ← getitem params "imsak" ≫= eval;
  v ← adjustHLTime self (imsak times) (sunrise times) a nightTime (Some "ccw");
  let times := set_imsak v times in
  a ← getitem params "fajr" ≫= eval;
  v ← adjustHLTime self (fajr times) (sunrise times) a nightTime (Some "ccw");
  let times := set_fajr v times in
  a ← getitem params "isha" ≫= eval;
  v ← adjustHLTime self (isha times) (sunset times) a nightTime None;
  let times := set_isha v times in
  a ← getitem params "maghrib" ≫= eval;
  v ← adjustHLTime self (maghrib times) (sunset times) a nightTime None;
  let times := set_maghrib v times in
  Ok times.

(** ** Adjusting, tuning and formatting a table of times *)

(** [adjustTimes]: adjust times in a prayer time array. *)
Definition adjustTimes (self : Obj) (times : Times float) : result (Times float) :=
  let params := settings self.1 in
  tz ← attr (timeZone self.2);
  lg ← attr (lng self.2);
  let tzAdjust := (tz - lg / 15)%float in
  let times := map_times (fun v => v + tzAdjust)%float times in
  hl ← getitem params "highLats";
  times ← (if negb (eq_str hl "None") then adjustHighLats self times else Ok times);
  p ← getitem params "imsak";
  times ← (if isMin p
           then m ← eval p; Ok (set_imsak (fajr times - m / 60)%float times)
           else Ok times);
  p ← getitem params "maghrib";
  times ← (if isMin p
           then m ← eval p; Ok (set_maghrib (sunset times - m / 60)%float times)
           else Ok times);
  p ← getitem params "isha";
  times ← (if isMin p
           then m ← eval p; Ok (set_isha (maghrib times - m / 60)%float times)
           else Ok times);
  m ← getitem params "dhuhr" ≫= eval;
  Ok (set_dhuhr (dhuhr times + m / 60)%float times).

(** [self.offset[name] / 60.0]. *)
Definition minutes_to_hours (v : pyval) : result float :=
  match v with
  | PyInt z => k ← float_of_int z; Ok (k / 60)%float
  | PyFloat f => Ok (f / 60)%float
  | _ => Raise TypeError
  end.

Definition tune1 (self : Obj) (name : string) (v : float) : result float :=
  o ← getitem (offset self.1) name ≫= minutes_to_hours;
  Ok (v + o)%float.

(** [tuneTimes]: apply offsets to the times. *)
Definition tuneTimes (self : Obj) (times : Times float) : result (Times float) :=
  v1 ← tune1 self "imsak" (imsak times);
  v2 ← tune1 self "fajr" (fajr times);
  v3 ← tune1 self "sunrise" (sunrise times);
  v4 ← tune1 self "dhuhr" (dhuhr times);
  v5 ← tune1 self "asr" (asr times);
  v6 ← tune1 self "sunset" (sunset times);
  v7 ← tune1 self "maghrib" (maghrib times);
  v8 ← tune1 self "isha" (isha times);
  v9 ← match midnight times with
       | Some v => Some <$> tune1 self "midnight" v
       | None => Ok None
       end;
  Ok {| imsak := v1; fajr := v2; sunrise := v3; dhuhr := v4; asr := v5;
        sunset := v6; maghrib := v7; isha := v8; midnight := v9 |}.

(** [modifyFormats]: convert times to given time format. *)
Definition modifyFormats (self : Obj) (times : Times float) : result (Times fmtval) :=
  let fmt v := getFormattedTime v (timeFormat self.2) None in
  v1 ← fmt (imsak times);
  v2 ← fmt (fajr times);
  v3 ← fmt (sunrise times);
  v4 ← fmt (dhuhr times);
  v5 ← fmt (asr times);
  v6 ← fmt (sunset times);
  v7 ← fmt (maghrib times);
  v8 ← fmt (isha times);
  v9 ← match midnight times with
       | Some v => Some <$> fmt v
       | None => Ok None
       end;
  Ok {| imsak := v1; fajr := v2; sunrise := v3; dhuhr := v4; asr := v5;
        sunset := v6; maghrib := v7; isha := v8; midnight := v9 |}.

(** ** Degree-based math functions and the solver, over a [math] library *)

Section Solver.
Variable libm : Libm.

Definition sin (d : float) : result float := math_sin libm (math_radians d).
Definition cos (d : float) : result float := math_cos libm (math_radians d).
Definition tan (d : float) : result float := math_tan libm (math_radians d).

Definition arcsin (x : float) : result float := math_degrees <$> math_asin libm x.
Definition arccos (x : float) : result float := math_degrees <$> math_acos libm x.
Definition arctan (x : float) : result float := math_degrees <$> math_atan libm x.

Definition arccot (x : float) : result float :=
  r ← truediv 1 x;
  math_degrees <$> math_atan libm r.
Definition arctan2 (y x : float) : result float :=
  math_degrees <$> math_atan2 libm y x.

(** [sunPosition]: compute declination angle of sun and equation of
    time. *)
Definition sunPosition (jd : float) : result (float * float) :=
  let D := (jd - 2451545.0)%float in
  g ← fixangle (357.529 + 0.98560028 * D);
  q ← fixangle (280.459 + 0.98564736 * D);
  s1 ← sin g;
  s2 ← sin (2 * g);
  L ← fixangle (q + 1.915 * s1 + 0.020 * s2);
  c1 ← cos g;
  c2 ← cos (2 * g);
  let R := (1.00014 - 0.01671 * c1 - 0.00014 * c2)%float in
  let e := (23.439 - 0.00000036 * D)%float in
  ce ← cos e;
  sL ← sin L;
  cL ← cos L;
  a ← arctan2 (ce * sL) cL;
  let RA := (a / 15)%float in
  h ← fixhour RA;
  let eqt := (q / 15 - h)%float in
  se ← sin e;
  sL ← sin L;
  decl ← arcsin (se * sL);
  Ok (decl, eqt).

(** [midDay]: compute mid-day time. *)
Definition midDay (self : Obj) (time : float) : result float :=
  jd ← attr (jDate self.2);
  p ← sunPosition (jd + time);
  fixhour (12 - p.2).

(** [sunAngleTime]: compute the time at which sun reaches a specific
    angle below horizon. *)
Definition sunAngleTime (self : Obj) (angle time : float)
    (direction : option string) : result float :=
  except_ValueError
    (jd ← attr (jDate self.2);
     p ← sunPosition (jd + time);
     let decl := p.1 in
     noon ← midDay self time;
     sa ← sin angle;
     sd ← sin decl;
     la ← attr (lat self.2);
     sl ← sin la;
     cd ← cos decl;
     la ← attr (lat self.2);
     cl ← cos la;
     x ← truediv (- sa - sd * sl) (cd * cl);
     ac ← arccos x;
     let t := (1 / 15 * ac)%float in
     Ok (noon + (if is_ccw direction then - t else t))%float)
    nan.

(** [asrTime]: compute asr time. *)
Definition asrTime (self : Obj) (factor time : float) : result float :=
  jd ← attr (jDate self.2);
  p ← sunPosition (jd + time);
  let decl := p.1 in
  la ← attr (lat self.2);
  tn ← tan (abs (la - decl));
  ac ← arccot (factor + tn);
  sunAngleTime self (- ac) time None.

(** [asrFactor]: get asr shadow factor. *)
Definition asrFactor (asrParam : pyval) : result float :=
  if eq_str asrParam "Standard" then Ok 1%float
  else if eq_str asrParam "Hanafi" then Ok 2%float
  else eval asrParam.

(** [riseSetAngle]: return sun angle for sunset/sunrise. *)
Definition riseSetAngle (elevation : float) : result float :=
  r ← math_sqrt elevation;
  Ok (0.833 + 0.0347 * r)%float.

(** [computePrayerTimes]: compute prayer times at given julian date. *)
Definition computePrayerTimes (self : Obj) (times : Times float) : result (Times float) :=
  let times := dayPortion times in
  let params := settings self.1 in
  a ← getitem params "imsak" ≫= eval;
  imsak' ← sunAngleTime self a (imsak times) (Some "ccw");
  a ← getitem params "fajr" ≫= eval;
  fajr' ← sunAngleTime self a (fajr times) (Some "ccw");
  a ← attr (elv self.2) ≫= riseSetAngle;
  sunrise' ← sunAngleTime self a (sunrise times) (Some "ccw");
  dhuhr' ← midDay self (dhuhr times);
  f ← getitem params "asr" ≫= asrFactor;
  asr' ← asrTime self f (asr times);
  a ← attr (elv self.2) ≫= riseSetAngle;
  sunset' ← sunAngleTime self a (sunset times) None;
  a ← getitem params "maghrib" ≫= eval;
  maghrib' ← sunAngleTime self a (maghrib times) None;
  a ← getitem params "isha" ≫= eval;
  isha' ← sunAngleTime self a (isha times) None;
  Ok {| imsak := imsak'; fajr := fajr'; sunrise := sunrise'; dhuhr := dhuhr';
        asr := asr'; sunset := sunset'; maghrib := maghrib'; isha := isha';
        midnight := None |}.

(** [for i in range(n): times = self.computePrayerTimes(times)]. *)
Fixpoint iterate (self : Obj) (n : nat) (times : Times float) : result (Times float) :=
  match n with
  | O => Ok times
  | S n' => times ← computePrayerTimes self times; iterate self n' times
  end.

(** [computeTimes]: compute prayer times. *)
Definition computeTimes (self : Obj) : result (Times fmtval) :=
  let times := {| imsak := 5; fajr := 5; sunrise := 6; dhuhr := 12;
                  asr := 13; sunset := 18; maghrib := 18; isha := 18;
                  midnight := None |}%float in
  times ← iterate self numIterations times;
  times ← adjustTimes self times;
  md ← getitem (settings self.1) "midnight";
  d ← (if eq_str md "Jafari"
       then timeDiff (sunset times) (fajr times)
       else timeDiff (sunset times) (sunrise times));
  let times := set_midnight (sunset times + d / 2)%float times in
  times ← tuneTimes self times;
  modifyFormats self times.

(** The [date] argument of [getTimes]: a [datetime.date], or a sequence
    of integers. *)
Inductive date_arg : Type :=
| DateObj (year month day : Z)
| DateSeq (items : list Z).

Definition index {A} (l : list A) (i : nat) : result A :=
  match l !! i with Some v => Ok v | None => Raise IndexError end.

(** [getTimes]: return prayer times for a given date. *)
Definition getTimes (date : date_arg) (coords : list float) (timezone : float)
    (dst : bool) (format : option string) : M (Times fmtval) :=
  v ← lift (index coords 0);
  modify_self (set_lat v);;
  v ← lift (index coords 1);
  modify_self (set_lng v);;
  v ← (if decide (2 < length coords)%nat then lift (index coords 2) else mret 0%float);
  modify_self (set_elv v);;
  match format with
  | Some f => modify_self (set_timeFormat f)
  | None => mret tt
  end;;
  let date := match date with
              | DateObj year month day => [year; month; day]
              | DateSeq items => items
              end in
  modify_self (set_timeZone (timezone + (if dst then 1 else 0))%float);;
  jd ← lift (y ← index date 0; m ← index date 1; d ← index date 2; julian y m d);
  self ← get;
  lg ← lift (attr (lng self.2));
  modify_self (set_jDate (jd - lg / (15 * 24))%float);;
  self ← get;
  lift (computeTimes self).

End Solver.

(** ** Several instances of the one class

    The class dictionaries exist once; each instance has its own
    attributes.  Calling a method on the instance at [addr] runs it on
    the shared [Class] and that instance's [Self]. *)
Record World : Type := {
  klass : Class;
  instances : list Self
}.

Definition world0 : World := {| klass := class0; instances := [] |}.

(** [PrayTimes(method)]: allocate, run [__init__], return the address. *)
Definition construct (method : string) (w : World) : result nat * World :=
  let addr := length (instances w) in
  let '(r, (c, s)) := init method (klass w, fresh) in
  ((fun _ => addr) <$> r, {| klass := c; instances := instances w ++ [s] |}).

(** [obj.method(...)] for the instance at [addr]. *)
Definition call {A} (addr : nat) (m : M A) (w : World) : option (result A * World) :=
  match instances w !! addr with
  | Some s =>
      let '(r, (c, s')) := m (klass w, s) in
      Some (r, {| klass := c; instances := <[addr := s']> (instances w) |})
  | None => None
  end.

(** What the instance at [addr] sees as [self]. *)
Definition view (addr : nat) (w : World) : option Obj :=
  s ← instances w !! addr; Some (klass w, s).

End PrayTimes.

(* ===================================================================== *)
(** * Part I.c  Definitions used to state the properties                  *)
(* ===================================================================== *)

Import Py PrayTimes.

(** ** Floats, through their specification *)

Definition SF_is_nan (x : spec_float) : bool :=
  match x with S754_nan => true | _ => false end.

Definition SF_is_finite (x : spec_float) : bool :=
  match x with S754_zero _ | S754_finite _ _ _ => true | _ => false end.

(** ** The method table after [__init__] *)

Definition filled (kv : string * Method) : string * Method :=
  (kv.1, {| name := name kv.2; params := fill_defaults (params kv.2) |}).

(** ** The high-latitude rule and the minute offsets, in the words of the
    specification *)

(** The fraction of the night allowed to an event: half the night, one
    seventh, or [angle/60] of it (computed as [1/60 * angle]). *)
Definition spec_night_fraction (highLats : pyval) (angle : float) : float :=
  if eq_str highLats "AngleBased" then (1 / 60 * angle)%float
  else if eq_str highLats "OneSeventh" then (1 / 7)%float
  else (1 / 2)%float.

(** One event against its anchor.  [diff] is the circular difference from
    the anchor; a NaN time, or one further from the anchor than [allowed],
    is replaced by the anchor minus (counter-clockwise) or plus [allowed];
    any other time stays.  The outcome is not NaN as soon as the anchor is
    finite and [allowed] is not NaN. *)
Definition spec_high_lat_rule (ccw : bool) (allowed time anchor time' : float) : Prop :=
  exists diff,
    (if ccw then timeDiff time anchor else timeDiff anchor time) = Ok diff /\
    time' = (if math_isnan time || (allowed <? diff)%float
             then (if ccw then anchor - allowed else anchor + allowed)%float
             else time) /\
    (is_finite anchor = true -> math_isnan allowed = false -> math_isnan time' = false).

(** An event whose parameter [p] is a minute offset is [reference] minus
    the minutes; otherwise it keeps its angle-based time. *)
Definition spec_minute_offset (p : pyval) (reference angle_time result : float) : Prop :=
  if isMin p
  then exists minutes, eval p = Ok minutes /\ result = (reference - minutes / 60)%float
  else result = angle_time.

(** ** The output format after a call of [getTimes] *)

(** The [format] argument is stored once [coords[0]] and [coords[1]] have
    been read. *)
Definition after_format (format : option string) (coords : list float) (old : string)
  : string :=
  match format with
  | Some f => if decide (2 <= length coords)%nat then f else old
  | None => old
  end.

(** ** Stores and inputs of the examples *)

(** A [math] library that returns NaN everywhere: every call of it
    returns, so [getTimes] runs to its end under it. *)
Definition libm_nan : Libm :=
  {| math_sin := fun _ => Ok nan; math_cos := fun _ => Ok nan;
     math_tan := fun _ => Ok nan; math_asin := fun _ => Ok nan;
     math_acos := fun _ => Ok nan; math_atan := fun _ => Ok nan;
     math_atan2 := fun _ _ => Ok nan |}.

(** [PT = PrayTimes('MWL')]. *)
Definition constructed : Obj := (init "MWL" (class0, fresh)).2.

(** [PT = PrayTimes('MWL'); PT.setMethod('ISNA')]. *)
Definition on_ISNA : Obj := (setMethod "ISNA" constructed).2.

(** [A = PrayTimes('MWL'); B = PrayTimes('MWL')]: [A] at address 0, [B]
    at address 1. *)
Definition A_and_B : World := (construct "MWL" (construct "MWL" world0).2).2.

(** [A = PrayTimes('MWL'); A.adjust({'fajr': 12})]. *)
Definition A_adjusted : World :=
  match call 0 (adjust {[ "fajr" := PyInt 12 ]}) (construct "MWL" world0).2 with
  | Some (_, w) => w
  | None => world0
  end.

(** The Makkah method ([isha] is ['90 min']) at the longitude and time
    zone of the page, and a table of times as the solver leaves it. *)
Definition makkah_self : Obj :=
  let o := (setMethod "Makkah" constructed).2 in
  (o.1, set_lng 79.759439 (set_timeZone 5.5 o.2)).

Definition solved_times : Times float :=
  {| imsak := 4.31; fajr := 4.43; sunrise := 5.71; dhuhr := 12.03;
     asr := 15.42; sunset := 18.35; maghrib := 18.35; isha := 19.66;
     midnight := None |}%float.

Definition high_lat_times : Times float :=
  Eval vm_compute in
    match adjustHighLats makkah_self solved_times with
    | Ok r => r
    | Raise _ => solved_times
    end.

Definition adjusted_times : Times float :=
  Eval vm_compute in
    match adjustTimes makkah_self solved_times with
    | Ok r => r
    | Raise _ => solved_times
    end.

(** A polar summer day: the sun neither rises nor sets, no twilight angle
    is reached, and [sunAngleTime] has returned NaN for all of them. *)
Definition polar_times : Times float :=
  {| imsak := nan; fajr := nan; sunrise := nan; dhuhr := 12.03;
     asr := 17.5; sunset := nan; maghrib := nan; isha := nan;
     midnight := None |}%float.

(* ===================================================================== *)
(** * Part I.d  The functions of the page below the class                 *)
(* ===================================================================== *)

Module Page.
Import Py.

(** ** [datetime] as [adjust_time] uses it

    Strings are taken to be ASCII and the locale to be the C locale,
    whose [%p] is [AM]/[PM]. *)

(** [s.upper()]. *)
Definition upper_char (c : ascii) : ascii :=
  let n := N_of_ascii c in
  if (97 <=? n)%N && (n <=? 122)%N then ascii_of_N (n - 32) else c.

Fixpoint upper (s : string) : string :=
  match s with
  | EmptyString => EmptyString
  | String c s' => String (upper_char c) (upper s')
  end.

Definition digit_between (lo hi : Z) (c : ascii) : bool :=
  is_digit c && (lo <=? digit_val c) && (digit_val c <=? hi).

(** The groups of the regular expression that [strptime] compiles for
    ['%I:%M%p'].  Each lists its matches at the head of the string in the
    order the engine tries them:
    [%I] is [1[0-2]|0[1-9]|[1-9]], [%M] is [[0-5]\d|\d], [%p] is [am|pm]
    without regard to case. *)
Definition group_I (s : string) : list (Z * string) :=
  (match s with
   | String "1" (String c r) => if digit_between 0 2 c then [(10 + digit_val c, r)] else []
   | _ => []
   end ++
   match s with
   | String "0" (String c r) => if digit_between 1 9 c then [(digit_val c, r)] else []
   | _ => []
   end ++
   match s with
   | String c r => if digit_between 1 9 c then [(digit_val c, r)] else []
   | _ => []
   end)%list.

Definition group_M (s : string) : list (Z * string) :=
  (match s with
   | String c (String d r) =>
       if digit_between 0 5 c && is_digit d then [(10 * digit_val c + digit_val d, r)] else []
   | _ => []
   end ++
   match s with
   | String c r => if is_digit c then [(digit_val c, r)] else []
   | _ => []
   end)%list.

Definition group_p (s : string) : list (bool * string) :=
  match s with
  | String a (String m r) =>
      if Ascii.eqb (upper_char m) "M"
      then if Ascii.eqb (upper_char a) "A" then [(false, r)]
           else if Ascii.eqb (upper_char a) "P" then [(true, r)] else []
      else []
  | _ => []
  end.

Definition colon (s : string) : list string :=
  match s with
  | String ":" r => [r]
  | _ => []
  end.

(** The first way to match the whole pattern at the start of the string:
    the hour, the minute, the [pm] flag and what is left over. *)
Definition regex_I_M_p (s : string) : option (Z * Z * bool * string) :=
  head ('(h, r) ← group_I s; r ← colon r; '(m, r) ← group_M r; '(p, r) ← group_p r;
        [(h, m, p, r)]).

(** A [datetime]: the proleptic Gregorian ordinal of its day and the
    minute of the day. *)
Definition datetime : Type := Z * Z.

Definition MAXORDINAL : Z := 3652059.        (* 9999-12-31 *)
Definition ordinal_1900_01_01 : Z := 693596.

(** [datetime.strptime(s, '%I:%M%p')]: no match, or text left over, is a
    [ValueError]; the day is 1900-01-01. *)
Definition strptime_I_M_p (data_string : string) : result datetime :=
  match regex_I_M_p data_string with
  | Some (h, m, pm, EmptyString) =>
      let hour := if pm then (if h =? 12 then 12 else h + 12)
                  else (if h =? 12 then 0 else h) in
      Ok (ordinal_1900_01_01, hour * 60 + m)
  | _ => Raise ValueError
  end.

(** [timedelta(minutes=n)] for an [int]: at most 999999999 days either
    way. *)
Definition timedelta_minutes (minutes : Z) : result Z :=
  if 999999999 <? Z.abs (minutes `div` 1440) then Raise OverflowError else Ok minutes.

(** [d + delta]: the day must stay within years 1 to 9999. *)
Definition datetime_add (d : datetime) (delta : Z) : result datetime :=
  let t := d.2 + delta in
  let ord := d.1 + t `div` 1440 in
  if (1 <=? ord) && (ord <=? MAXORDINAL) then Ok (ord, t `mod` 1440)
  else Raise OverflowError.

(** [d.strftime('%I:%M %p')]. *)
Definition strftime_I_M_p (d : datetime) : string :=
  let hour := d.2 `div` 60 in
  let minute := d.2 `mod` 60 in
  let h12 := if hour `mod` 12 =? 0 then 12 else hour `mod` 12 in
  fmt_02d h12 ++ ":" ++ fmt_02d minute ++ " " ++ (if hour <? 12 then "AM" else "PM").

(** ** [adjust_time], [adjust_time_negative] *)

Definition adjust_time (time_str : string) (minutes : Z) : result string :=
  let time_str_upper := upper time_str in
  time_obj ← strptime_I_M_p time_str_upper;
  delta ← timedelta_minutes minutes;
  adjusted_time ← datetime_add time_obj delta;
  Ok (strftime_I_M_p adjusted_time).

Definition adjust_time_negative (time_str : string) (minutes : Z) : result string :=
  let time_str_upper := upper time_str in
  time_obj ← strptime_I_M_p time_str_upper;
  delta ← timedelta_minutes minutes;
  adjusted_time ← datetime_add time_obj (- delta);
  Ok (strftime_I_M_p adjusted_time).

(** ** [calendar.monthrange(year, month)[1]], the days the month and year
    tables iterate over *)

Definition isleap (year : Z) : bool :=
  (year `mod` 4 =? 0) && (negb (year `mod` 100 =? 0) || (year `mod` 400 =? 0)).

Definition mdays : list Z := [0; 31; 28; 31; 30; 31; 30; 31; 31; 30; 31; 30; 31].

Definition monthrange_days (year month : Z) : result Z :=
  if (1 <=? month) && (month <=? 12)
  then Ok (mdays !!! Z.to_nat month + (if (month =? 2) && isleap year then 1 else 0))
  else Raise ValueError.

End Page.

(* ===================================================================== *)
(** * Part I.e  Definitions used to state further properties              *)
(* ===================================================================== *)

Import Page.

(** The default of a parameter name, if it has one. *)
Definition default_of (k : string) : option pyval :=
  (list_to_map defaultParams : gmap string pyval) !! k.

(** A parameter after the back-fill of [__init__]: a missing or [None]
    parameter takes its default when there is one, anything else stays. *)
Definition backfilled (p : gmap string pyval) (k : string) : option pyval :=
  match p !! k with
  | Some PyNone | None =>
      match default_of k with
      | Some d => Some d
      | None => p !! k
      end
  | Some v => Some v
  end.

(** The string [getFormattedTime] builds under ['12h'] with the default
    suffixes, from the hour and the minute it has computed. *)
Definition formatted_12h (hours minutes : Z) : string :=
  fmt_d ((hours + 11) `mod` 12 + 1) ++ ":" ++ fmt_02d minutes ++
  (if hours <? 12 then "am" else "pm").

(** The string it builds under ['24h']. *)
Definition formatted_24h (hours minutes : Z) : string :=
  fmt_02d hours ++ ":" ++ fmt_02d minutes.

(** The day after [(year, month, day)] in the order the month and year
    tables walk through the calendar. *)
Definition next_day (year month day : Z) : Z * Z * Z :=
  match monthrange_days year month with
  | Ok n =>
      if day <? n then (year, month, day + 1)
      else if month <? 12 then (year, month + 1, 1)
      else (year + 1, 1, 1)
  | Raise _ => (year, month, day)
  end.

(** [julian] over one month: its values on the days of the month,
    followed by its value on the first day after it, step by one. *)
Definition julian_month (year month : Z) (n : Z) : list (result float) :=
  ((fun d => julian year month d) <$> seqZ 1 n) ++
  [ let '(y', m', d') := next_day year month n in julian y' m' d' ].

Definition steps_by_one (js : list (result float)) (i : nat) : bool :=
  match js !! i, js !! S i with
  | Some (Ok a), Some (Ok b) => PrimFloat.Leibniz.eqb b (a + 1)
  | _, _ => false
  end.

Definition julian_month_steps (year month : Z) : bool :=
  match monthrange_days year month with
  | Ok n => let js := julian_month year month n in
            forallb (steps_by_one js) (seq 0 (Z.to_nat n))
  | Raise _ => false
  end.

(** The strings [strftime] can produce, and the clock strings of
    [getFormattedTime], by minute of the day. *)
Definition rejects (s : string) : bool :=
  match strptime_I_M_p (upper s) with
  | Raise ValueError => true
  | _ => false
  end.

Definition reads_as (s : string) (minute_of_day : Z) : bool :=
  match strptime_I_M_p (upper s) with
  | Ok (ord, t) => (ord =? ordinal_1900_01_01) && (t =? minute_of_day)
  | _ => false
  end.


(* ===================================================================== *)
(** * Part II  Properties                                                 *)
(* ===================================================================== *)

(** ** The two monads *)

Ltac run_M :=
  unfold mbind, M_bind, mret, M_ret, lift, get, modify_class, modify_self; simpl.

Lemma result_bind_Ok {A B} (m : result A) (f : A -> result B) (b : B) :
  m ≫= f = Ok b -> exists a, m = Ok a /\ f a = Ok b.
Proof. destruct m as [a|e]; [ exists a; auto | discriminate ]. Qed.

Tactic Notation "inv_bind" hyp(H) "as" ident(a) ident(E) :=
  apply result_bind_Ok in H as (a & E & H).

Lemma getitem_Ok {V} (d : gmap string V) (k : string) (v : V) :
  getitem d k = Ok v -> d !! k = Some v.
Proof. unfold getitem. destruct (d !! k); congruence. Qed.

Lemma attr_Ok (a : option float) (v : float) : attr a = Ok v -> a = Some v.
Proof. destruct a; simpl; congruence. Qed.

(** ** Floats *)

Section FloatFacts.

Lemma SFcompare_refl (x : spec_float) :
  SFcompare x x = if SF_is_nan x then None else Some Eq.
Proof.
  destruct x as [s|s| |s m e]; simpl; try reflexivity.
  - now destruct s.
  - rewrite Z.compare_refl, Pos.compare_cont_refl. now destruct s.
Qed.

Lemma isnan_spec (x : float) : math_isnan x = SF_is_nan (Prim2SF x).
Proof.
  unfold math_isnan, is_nan. rewrite FloatAxioms.eqb_spec. unfold SFeqb.
  rewrite SFcompare_refl. now destruct (SF_is_nan (Prim2SF x)).
Qed.

Lemma isfinite_spec (x : float) : is_finite x = SF_is_finite (Prim2SF x).
Proof.
  unfold is_finite, is_infinity. fold (math_isnan x). rewrite isnan_spec.
  rewrite FloatAxioms.eqb_spec, abs_spec.
  destruct (Prim2SF x) as [s|s| |s m e]; reflexivity.
Qed.

(** Rounding a non-negative mantissa never yields NaN. *)
Lemma shr_1_nonneg (r : shr_record) : 0 <= shr_m r -> 0 <= shr_m (shr_1 r).
Proof.
  destruct r as [m b1 b2]. simpl. intros H.
  destruct m as [|p|p]; [ simpl; lia | destruct p; simpl; lia | lia ].
Qed.

Lemma iter_shr_1_nonneg (p : positive) :
  forall r, 0 <= shr_m r -> 0 <= shr_m (SpecFloat.iter_pos shr_1 p r).
Proof.
  induction p as [p IH|p IH|]; intros r H; simpl.
  - apply IH, IH. now apply shr_1_nonneg.
  - now apply IH, IH.
  - now apply shr_1_nonneg.
Qed.

Lemma shr_fexp_nonneg (m e : Z) (l : location) :
  0 <= m -> 0 <= shr_m (shr_fexp prec emax m e l).1.
Proof.
  intros H. unfold shr_fexp, shr.
  assert (H0 : 0 <= shr_m (shr_record_of_loc m l)) by (destruct l as [|[]]; exact H).
  destruct (fexp prec emax (Zdigits2 m + e) - e); simpl; auto.
  now apply iter_shr_1_nonneg.
Qed.

Lemma round_nearest_even_nonneg (m : Z) (l : location) :
  0 <= m -> 0 <= round_nearest_even m l.
Proof.
  intros H. destruct l as [|[]]; simpl; try lia. destruct (Z.even m); lia.
Qed.

Lemma binary_round_aux_not_nan (s : bool) (m e : Z) (l : location) :
  0 <= m -> SF_is_nan (binary_round_aux prec emax s m e l) = false.
Proof.
  intros H. unfold binary_round_aux.
  pose proof (shr_fexp_nonneg m e l H) as H1.
  destruct (shr_fexp prec emax m e l) as [r1 e1]. simpl in H1.
  pose proof (shr_fexp_nonneg _ e1 loc_Exact
                (round_nearest_even_nonneg _ (loc_of_shr_record r1) H1)) as H2.
  destruct (shr_fexp prec emax _ e1 loc_Exact) as [r2 e2]. simpl in H2.
  destruct (shr_m r2) as [|p|p]; [ reflexivity | | lia ].
  now destruct (e2 <=? emax - prec).
Qed.

Lemma binary_normalize_not_nan (m e : Z) (sz : bool) :
  SF_is_nan (binary_normalize prec emax m e sz) = false.
Proof.
  destruct m as [|p|p]; [ reflexivity | | ]; simpl; unfold binary_round;
    destruct (shl_align _ _ _) as [mz ez]; now apply binary_round_aux_not_nan.
Qed.

Lemma SFadd_not_nan (x y : spec_float) :
  SF_is_finite x = true -> SF_is_nan y = false -> SF_is_nan (SFadd prec emax x y) = false.
Proof.
  destruct x as [sx|sx| |sx mx ex], y as [sy|sy| |sy my ey]; try discriminate; intros _ _;
    try reflexivity.
  - now destruct sx, sy.
  - apply binary_normalize_not_nan.
Qed.

Lemma SFsub_not_nan (x y : spec_float) :
  SF_is_finite x = true -> SF_is_nan y = false -> SF_is_nan (SFsub prec emax x y) = false.
Proof.
  destruct x as [sx|sx| |sx mx ex], y as [sy|sy| |sy my ey]; try discriminate; intros _ _;
    try reflexivity.
  - now destruct sx, sy.
  - apply binary_normalize_not_nan.
Qed.

Lemma add_not_nan (x y : float) :
  is_finite x = true -> math_isnan y = false -> math_isnan (x + y) = false.
Proof. rewrite isfinite_spec, !isnan_spec, add_spec. apply SFadd_not_nan. Qed.

Lemma sub_not_nan (x y : float) :
  is_finite x = true -> math_isnan y = false -> math_isnan (x - y) = false.
Proof. rewrite isfinite_spec, !isnan_spec, sub_spec. apply SFsub_not_nan. Qed.

(** [x + (-y)] and [x - y] are the same float. *)
Lemma SFadd_opp (x y : spec_float) :
  SFadd prec emax x (SFopp y) = SFsub prec emax x y.
Proof.
  destruct x as [sx|sx| |sx mx ex], y as [sy|sy| |sy my ey]; simpl; try reflexivity.
  - now destruct sx, sy.
  - now destruct sx, sy.
  - f_equal. destruct sy; simpl; lia.
Qed.

Lemma add_opp (x y : float) : (x + - y = x - y)%float.
Proof.
  apply Prim2SF_inj. now rewrite add_spec, opp_spec, sub_spec, <- SFadd_opp.
Qed.

End FloatFacts.

(** ** The method table and [__init__] *)

Section Registry.

Lemma last_default_irrelevant {A} (l : list A) (d d' : A) :
  l <> [] -> List.last l d = List.last l d'.
Proof.
  induction l as [|x l IH]; [ congruence | intros _ ].
  destruct l as [|y l]; [ reflexivity | ].
  change (List.last (y :: l) d = List.last (y :: l) d'). now apply IH.
Qed.

Lemma init_methods_foldl (ms : list (string * Method)) :
  forall method acc,
    foldl (fun '(_, acc) '(key, config) =>
             (key, (acc ++ [(key, {| name := name config;
                                     params := fill_defaults (params config) |})])%list))
          (method, acc) ms
    = (List.last ms.*1 method, (acc ++ map filled ms)%list).
Proof.
  induction ms as [|[k c] ms IH]; intros method acc.
  - simpl. now rewrite app_nil_r.
  - cbn [foldl]. rewrite IH. cbn [fmap list_fmap map filled fst snd].
    rewrite <- app_assoc. f_equal.
    destruct ms as [|kv ms']; [ reflexivity | ].
    cbn [fmap list_fmap].
    transitivity (List.last (kv.1 :: ms'.*1) method);
      [ now apply last_default_irrelevant | reflexivity ].
Qed.

(** After the loop, [method] names the last entry of the table, whatever
    the argument was; only an empty table leaves the argument in place. *)
Lemma init_methods_eq (method : string) (ms : list (string * Method)) :
  init_methods method ms = (List.last ms.*1 method, map filled ms).
Proof. unfold init_methods. now rewrite init_methods_foldl. Qed.

Lemma filled_keys (ms : list (string * Method)) : (map filled ms).*1 = ms.*1.
Proof. induction ms as [|[k c] ms IH]; [ reflexivity | cbn; now rewrite <- IH ]. Qed.

Lemma last_in_keys (l : list string) (d : string) : l <> [] -> List.last l d ∈ l.
Proof.
  induction l as [|x l IH]; [ congruence | intros _ ].
  destruct l as [|y l]; [ left | right; apply IH; congruence ].
Qed.

Lemma methods_getitem_in (ms : list (string * Method)) (k : string) :
  k ∈ ms.*1 -> exists config, methods_getitem ms k = Ok config.
Proof.
  intros Hin. unfold methods_getitem.
  destruct (list_find (fun kv => kv.1 = k) ms) as [[i [k' c]]|] eqn:E.
  - now exists c.
  - exfalso. apply list_find_None in E.
    apply list_elem_of_fmap in Hin as ([k' c] & -> & Hkv).
    rewrite Forall_forall in E. now apply (E (k', c)).
Qed.

Lemma assign_items_union (p d : gmap string pyval) : assign_items p d = p ∪ d.
Proof.
  unfold assign_items.
  apply (map_fold_weak_ind (fun r m => r = m ∪ d)).
  - now rewrite (left_id_L ∅ (∪)).
  - intros k v m r _ ->. now rewrite insert_union_l.
Qed.

Lemma init_returns (method : string) (o : Obj) :
  methods o.1 <> [] -> (init method o).1 = Ok tt.
Proof.
  intros Hne. unfold init. run_M. rewrite init_methods_eq. run_M.
  assert (Hlast : List.last (methods o.1).*1 method ∈ (map filled (methods o.1)).*1).
  { rewrite filled_keys. apply last_in_keys. destruct (methods o.1); [ congruence | discriminate ]. }
  unfold in_methods. rewrite bool_decide_eq_true_2 by exact Hlast.
  destruct (methods_getitem_in _ _ Hlast) as [config ->]. reflexivity.
Qed.

(** What [__init__] leaves behind: the method is the last key of the
    table, not the argument. *)
Lemma init_configures_last (method : string) (o : Obj) :
  methods o.1 <> [] ->
  calcMethod (init method o).2.2 = List.last (methods o.1).*1 method.
Proof.
  intros Hne. unfold init. run_M. rewrite init_methods_eq. run_M.
  assert (Hlast : List.last (methods o.1).*1 method ∈ (map filled (methods o.1)).*1).
  { rewrite filled_keys. apply last_in_keys. destruct (methods o.1); [ congruence | discriminate ]. }
  unfold in_methods. rewrite bool_decide_eq_true_2 by exact Hlast.
  destruct (methods_getitem_in _ _ Hlast) as [config ->]. reflexivity.
Qed.

End Registry.

(** ** Instances share the class dictionaries *)

Section Sharing.

(** A call on one instance leaves the attributes of every other instance
    alone, and hands the other instances whatever it did to the class
    dictionaries. *)
Lemma call_other_instance {A} (a b : nat) (m : M A) (w w' : World) (r : result A) :
  a <> b -> call b m w = Some (r, w') ->
  instances w' !! a = instances w !! a /\
  view a w' = (fun s => (klass w', s)) <$> instances w !! a.
Proof.
  intros Hab. unfold call, view.
  destruct (instances w !! b) as [s|]; [ | discriminate ].
  destruct (m (klass w, s)) as [r' [c s']]. intros [= <- <-]. simpl.
  rewrite list_lookup_insert_ne by congruence.
  split; [ reflexivity | ]. now destruct (instances w !! a).
Qed.

(** [adjust] called on [b] is seen through [a]: the settings [a] reads
    are the merged ones. *)
Lemma adjust_is_seen_by_all (a b : nat) (p : gmap string pyval) (w : World) (sa sb : Self) :
  instances w !! a = Some sa -> instances w !! b = Some sb ->
  exists w', call b (adjust p) w = Some (Ok tt, w') /\
             getSettings <$> view a w' = Some (p ∪ settings (klass w)).
Proof.
  intros Ha Hb. unfold call. rewrite Hb. cbn.
  eexists; split; [ reflexivity | ].
  unfold view. cbn.
  destruct (decide (a = b)) as [->|Hne].
  - rewrite list_lookup_insert_eq by (now apply lookup_lt_Some in Hb). reflexivity.
  - rewrite list_lookup_insert_ne by congruence. now rewrite Ha.
Qed.

(** C1, at a failing input.  [A] and [B] are two instances.
    [B.adjust({'asr': 'Hanafi'})] changes the [asr] setting that [A]
    reads from ['Standard'] to ['Hanafi'], while [A.getMethod()] and the
    attributes of [A] stay; and constructing a further instance after
    [A.adjust({'fajr': 12})] puts [A]'s [fajr] back to [18].  [settings]
    and [offset] are dictionaries of the class, mutated in place. *)
Theorem settings_shared_between_instances :
  (getSettings <$> view 0 A_and_B) ≫= (.!! "asr") = Some (PyStr "Standard") /\
  (exists w, call 1 (adjust {[ "asr" := PyStr "Hanafi" ]}) A_and_B = Some (Ok tt, w) /\
             (getSettings <$> view 0 w) ≫= (.!! "asr") = Some (PyStr "Hanafi") /\
             instances w !! 0%nat = instances A_and_B !! 0%nat) /\
  (getSettings <$> view 0 A_adjusted) ≫= (.!! "fajr") = Some (PyInt 12) /\
  (getSettings <$> view 0 (construct "ISNA" A_adjusted).2) ≫= (.!! "fajr")
    = Some (PyInt 18).
Proof.
  split; [ vm_compute; reflexivity | ].
  split; [ eexists; split; [ vm_compute; reflexivity | split; vm_compute; reflexivity ] | ].
  split; vm_compute; reflexivity.
Qed.

End Sharing.

(** ** [tune] *)

(** C2.  [tune] looks up [self.offsets]; the table the class defines and
    [__init__] fills is [self.offset].  For every mapping of offsets and
    every store the call raises [AttributeError] and merges nothing. *)
Theorem tune_raises_AttributeError (timeOffsets : gmap string pyval) (o : Obj) :
  tune timeOffsets o = (Raise AttributeError, o).
Proof. reflexivity. Qed.

(** What [tune] was written to do is what [adjust] does on [settings]: a
    key-wise merge. *)
Lemma adjust_merges (p : gmap string pyval) (o : Obj) (k : string) :
  adjust p o = (Ok tt, (set_settings (p ∪ settings o.1) o.1, o.2)) /\
  (p ∪ settings o.1) !! k = match p !! k with Some v => Some v | None => settings o.1 !! k end.
Proof.
  split; [ reflexivity | ].
  rewrite lookup_union. destruct (p !! k), (settings o.1 !! k); reflexivity.
Qed.

(** ** Unknown method names *)

(** C4, as the code has it.  A method name that is not in the table never
    makes a call fail: the constructor returns, and [setMethod] returns
    having changed nothing -- the current method and settings stay, there
    is no switch to ['MWL']. *)
Theorem unknown_method_is_ignored (method : string) (o : Obj) :
  methods o.1 <> [] ->
  in_methods method (methods o.1) = false ->
  (init method o).1 = Ok tt /\ setMethod method o = (Ok tt, o).
Proof.
  intros Hne Hun. split; [ now apply init_returns | ].
  unfold setMethod. run_M. now rewrite Hun.
Qed.

Lemma unknown_method_is_ignored_witness :
  methods (class0, fresh).1 <> [] /\
  in_methods "Atlantis" (methods (class0, fresh).1) = false /\
  (init "Atlantis" (class0, fresh)).1 = Ok tt /\
  setMethod "Atlantis" (class0, fresh) = (Ok tt, (class0, fresh)).
Proof.
  assert (H1 : methods (class0, fresh).1 <> []) by discriminate.
  assert (H2 : in_methods "Atlantis" (methods (class0, fresh).1) = false)
    by (vm_compute; reflexivity).
  split; [ exact H1 | split; [ exact H2 | ] ].
  exact (unknown_method_is_ignored "Atlantis" (class0, fresh) H1 H2).
Defined.

(** An instance switched to ['ISNA']: [setMethod] with an unknown name
    leaves it on ['ISNA'], it does not fall back to ['MWL']. *)
Lemma setMethod_unknown_no_fallback :
  ~ (forall (method : string) (o : Obj),
       in_methods method (methods o.1) = false ->
       getMethod (setMethod method o).2 = "MWL").
Proof.
  intros H.
  assert (U : in_methods "Atlantis" (methods on_ISNA.1) = false) by (vm_compute; reflexivity).
  specialize (H "Atlantis" on_ISNA U).
  assert (E : getMethod (setMethod "Atlantis" on_ISNA).2 = "ISNA") by (vm_compute; reflexivity).
  rewrite E in H. discriminate H.
Qed.

(** The constructor does not fall back to ['MWL'] either: whatever name
    it is given, known or not, it configures the last method of the
    table, ['TN']. *)
Lemma constructor_configures_TN (method : string) :
  getMethod (init method (class0, fresh)).2 = "TN".
Proof.
  unfold getMethod. rewrite init_configures_last by discriminate. reflexivity.
Qed.

(** ** [eval] *)

Lemma leading_token_empty (s : string) :
  leading_token s = "" <->
  s = "" \/ exists c r, s = String c r /\ numeric_char c = false.
Proof.
  destruct s as [|c r]; simpl.
  - split; auto.
  - destruct (numeric_char c) eqn:E; split.
    + discriminate.
    + intros [|(c' & r' & Heq & Hc)]; [ discriminate | ].
      injection Heq as <- <-. congruence.
    + intros _. right. now exists c, r.
    + reflexivity.
Qed.

(** C5, as the code has it.  A specification string that is empty or
    starts with a character other than a digit, a point or a sign has an
    empty leading token and evaluates to [0] without raising. *)
Theorem eval_empty_token_is_zero (s : string) :
  (s = "" \/ exists c r, s = String c r /\ numeric_char c = false) ->
  eval (PyStr s) = Ok 0%float.
Proof.
  intros H. apply leading_token_empty in H.
  unfold eval. cbn [str]. now rewrite H.
Qed.

Lemma eval_empty_token_is_zero_witness :
  ("min" = "" \/ exists c r, "min" = String c r /\ numeric_char c = false) /\
  eval (PyStr "min") = Ok 0%float.
Proof.
  assert (H : "min" = "" \/ exists c r, "min" = String c r /\ numeric_char c = false).
  { right. exists "m"%char, "in". split; reflexivity. }
  split; [ exact H | exact (eval_empty_token_is_zero "min" H) ].
Defined.

(** A token made of the accepted characters need not be a number: a lone
    sign (or ["1.2.3"], ["+-5"]) reaches [float], which raises
    [ValueError]. *)
Lemma eval_not_total :
  ~ (forall s : string, exists v, eval (PyStr s) = Ok v).
Proof.
  intros H. destruct (H "- min") as [v Hv].
  vm_compute in Hv. discriminate Hv.
Qed.

(** ** [fix] *)

Lemma fix_nan (a mode : float) : math_isnan a = true -> fix_ a mode = Ok a.
Proof. intros H. unfold fix_. now rewrite H. Qed.

(** C8, at a failing input.  [-1e-20] is a finite float and [24] a
    positive modulus; [floor(a / 24)] is [-1], [a + 24] rounds to [24.0],
    which is not negative, so [fix] returns [24.0]: outside [[0, 24)].
    Applied again it gives [0.0], so it is not idempotent there either.
    The same happens in [timeDiff] for two times one unit in the last
    place apart. *)
Theorem fix_returns_modulus :
  fix_ (-1e-20) 24 = Ok 24%float /\ (24 <? 24)%float = false /\
  fix_ 24 24 = Ok 0%float /\
  timeDiff 12.5 12.499999999999998 = Ok 24%float.
Proof. vm_compute. auto. Qed.

(** ** [getFormattedTime] *)

(** C9.  A NaN time is rendered as the sentinel ['-----'] under every
    format (so under ['24h'], ['12h'] and ['Float']) and every suffix
    list; the result is the string, never a number. *)
Theorem getFormattedTime_nan (time : float) (format : string)
    (suffixes : option (list string)) :
  math_isnan time = true ->
  getFormattedTime time format suffixes = Ok (FStr "-----").
Proof. intros H. unfold getFormattedTime. now rewrite H. Qed.

Lemma getFormattedTime_nan_witness :
  math_isnan nan = true /\ getFormattedTime nan "Float" None = Ok (FStr "-----").
Proof.
  assert (H : math_isnan nan = true) by reflexivity.
  split; [ exact H | exact (getFormattedTime_nan nan "Float" None H) ].
Defined.

(** ** High latitudes *)

Section HighLatitudes.

Lemma nightPortion_spec (self : Obj) (angle night p : float) :
  nightPortion self angle night = Ok p ->
  exists hl, settings self.1 !! "highLats" = Some hl /\
             p = (spec_night_fraction hl angle * night)%float.
Proof.
  unfold nightPortion. intros H. inv_bind H as hl E. apply getitem_Ok in E.
  exists hl. split; [ exact E | ]. injection H as <-.
  unfold spec_night_fraction.
  destruct (eq_str hl "OneSeventh") eqn:E7, (eq_str hl "AngleBased") eqn:EA;
    try reflexivity.
  destruct hl; try discriminate. simpl in *.
  apply String.eqb_eq in E7, EA. congruence.
Qed.

Lemma adjustHLTime_spec (self : Obj) (time base angle night r : float)
    (direction : option string) :
  adjustHLTime self time base angle night direction = Ok r ->
  exists hl, settings self.1 !! "highLats" = Some hl /\
    spec_high_lat_rule (is_ccw direction) (spec_night_fraction hl angle * night) time base r.
Proof.
  unfold adjustHLTime. intros H. inv_bind H as p E.
  apply nightPortion_spec in E as (hl & Hhl & ->).
  inv_bind H as diff E. injection H as <-.
  exists hl. split; [ exact Hhl | ]. exists diff. split; [ exact E | ].
  set (P := (spec_night_fraction hl angle * night)%float).
  split.
  - destruct (math_isnan time || (P <? diff)%float); [ | reflexivity ].
    destruct (is_ccw direction); [ apply add_opp | reflexivity ].
  - intros Hf Hn.
    destruct (math_isnan time || (P <? diff)%float) eqn:C.
    + destruct (is_ccw direction).
      * rewrite add_opp. now apply sub_not_nan.
      * now apply add_not_nan.
    + now apply orb_false_elim in C as [-> _].
Qed.

(** C6, as the code has it.  Whenever the correction returns: with
    [night] the circular sunset-to-sunrise duration and the fraction of
    the night given by the [highLats] policy, [imsak] and [fajr] follow
    the rule against [sunrise] counter-clockwise, [isha] and [maghrib]
    against [sunset]; the other events are untouched.  A corrected event
    is not NaN when its anchor is finite and the allowed portion is not
    NaN -- not in general. *)
Theorem adjustHighLats_rule (self : Obj) (times r : Times float) :
  adjustHighLats self times = Ok r ->
  exists hl night a_imsak a_fajr a_isha a_maghrib,
    settings self.1 !! "highLats" = Some hl /\
    timeDiff (sunset times) (sunrise times) = Ok night /\
    getitem (settings self.1) "imsak" ≫= eval = Ok a_imsak /\
    getitem (settings self.1) "fajr" ≫= eval = Ok a_fajr /\
    getitem (settings self.1) "isha" ≫= eval = Ok a_isha /\
    getitem (settings self.1) "maghrib" ≫= eval = Ok a_maghrib /\
    spec_high_lat_rule true (spec_night_fraction hl a_imsak * night)
      (imsak times) (sunrise times) (imsak r) /\
    spec_high_lat_rule true (spec_night_fraction hl a_fajr * night)
      (fajr times) (sunrise times) (fajr r) /\
    spec_high_lat_rule false (spec_night_fraction hl a_isha * night)
      (isha times) (sunset times) (isha r) /\
    spec_high_lat_rule false (spec_night_fraction hl a_maghrib * night)
      (maghrib times) (sunset times) (maghrib r) /\
    sunrise r = sunrise times /\ dhuhr r = dhuhr times /\ asr r = asr times /\
    sunset r = sunset times /\ midnight r = midnight times.
Proof.
  unfold adjustHighLats. intros H.
  inv_bind H as night Hnight.
  inv_bind H as a1 Ha1.
  inv_bind H as w1 E1. apply adjustHLTime_spec in E1 as (hl & Hhl & R1).
  inv_bind H as a2 Ha2.
  inv_bind H as w2 E2. apply adjustHLTime_spec in E2 as (hl2 & Hhl2 & R2).
  inv_bind H as a3 Ha3.
  inv_bind H as w3 E3. apply adjustHLTime_spec in E3 as (hl3 & Hhl3 & R3).
  inv_bind H as a4 Ha4.
  inv_bind H as w4 E4. apply adjustHLTime_spec in E4 as (hl4 & Hhl4 & R4).
  injection H as <-.
  assert (hl2 = hl) as -> by congruence.
  assert (hl3 = hl) as -> by congruence.
  assert (hl4 = hl) as -> by congruence.
  exists hl, night, a1, a2, a3, a4. simpl in *.
  repeat split; assumption || reflexivity.
Qed.

Lemma adjustHighLats_rule_witness :
  adjustHighLats makkah_self solved_times = Ok high_lat_times /\
  exists hl night a_imsak a_fajr a_isha a_maghrib,
    settings makkah_self.1 !! "highLats" = Some hl /\
    timeDiff (sunset solved_times) (sunrise solved_times) = Ok night /\
    getitem (settings makkah_self.1) "imsak" ≫= eval = Ok a_imsak /\
    getitem (settings makkah_self.1) "fajr" ≫= eval = Ok a_fajr /\
    getitem (settings makkah_self.1) "isha" ≫= eval = Ok a_isha /\
    getitem (settings makkah_self.1) "maghrib" ≫= eval = Ok a_maghrib /\
    spec_high_lat_rule true (spec_night_fraction hl a_imsak * night)
      (imsak solved_times) (sunrise solved_times) (imsak high_lat_times) /\
    spec_high_lat_rule true (spec_night_fraction hl a_fajr * night)
      (fajr solved_times) (sunrise solved_times) (fajr high_lat_times) /\
    spec_high_lat_rule false (spec_night_fraction hl a_isha * night)
      (isha solved_times) (sunset solved_times) (isha high_lat_times) /\
    spec_high_lat_rule false (spec_night_fraction hl a_maghrib * night)
      (maghrib solved_times) (sunset solved_times) (maghrib high_lat_times) /\
    sunrise high_lat_times = sunrise solved_times /\
    dhuhr high_lat_times = dhuhr solved_times /\
    asr high_lat_times = asr solved_times /\
    sunset high_lat_times = sunset solved_times /\
    midnight high_lat_times = midnight solved_times.
Proof.
  assert (H : adjustHighLats makkah_self solved_times = Ok high_lat_times)
    by (vm_compute; reflexivity).
  split; [ exact H | exact (adjustHighLats_rule makkah_self solved_times high_lat_times H) ].
Defined.

(** On a polar summer day sunrise and sunset are NaN themselves: the
    night, the allowed portion and the replacement [anchor - portion] are
    NaN, and the corrected [fajr] and [isha] are NaN, not finite. *)
Lemma high_lat_correction_can_be_nan :
  exists r, adjustHighLats constructed polar_times = Ok r /\
            math_isnan (fajr r) = true /\ math_isnan (isha r) = true.
Proof. eexists. split; [ vm_compute; reflexivity | split; reflexivity ]. Qed.

End HighLatitudes.

(** ** [adjustTimes] *)

(** C7.  Whenever [adjustTimes] returns [r]: [t1] is the input with
    [timeZone - lng/15] added to every event; [t2] is [t1] after the
    high-latitude correction, which runs unless [highLats] is ['None'];
    then [imsak], [maghrib], [isha] are, where their parameter is a minute
    offset, [fajr], [sunset], and the just resolved [maghrib] minus the
    minutes; last, the [dhuhr] minutes are added to [dhuhr]. *)
Theorem adjustTimes_order (self : Obj) (times r : Times float) :
  adjustTimes self times = Ok r ->
  exists (tz lg : float) (hl p_imsak p_maghrib p_isha p_dhuhr : pyval)
         (m_dhuhr : float) (t1 t2 : Times float),
    timeZone self.2 = Some tz /\ lng self.2 = Some lg /\
    settings self.1 !! "highLats" = Some hl /\
    settings self.1 !! "imsak" = Some p_imsak /\
    settings self.1 !! "maghrib" = Some p_maghrib /\
    settings self.1 !! "isha" = Some p_isha /\
    settings self.1 !! "dhuhr" = Some p_dhuhr /\
    t1 = map_times (fun v => v + (tz - lg / 15))%float times /\
    (if eq_str hl "None" then Ok t1 else adjustHighLats self t1) = Ok t2 /\
    spec_minute_offset p_imsak (fajr t2) (imsak t2) (imsak r) /\
    spec_minute_offset p_maghrib (sunset t2) (maghrib t2) (maghrib r) /\
    spec_minute_offset p_isha (maghrib r) (isha t2) (isha r) /\
    eval p_dhuhr = Ok m_dhuhr /\
    dhuhr r = (dhuhr t2 + m_dhuhr / 60)%float /\
    fajr r = fajr t2 /\ sunrise r = sunrise t2 /\ asr r = asr t2 /\
    sunset r = sunset t2 /\ midnight r = midnight t2.
Proof.
  unfold adjustTimes. intros H.
  inv_bind H as tz E. apply attr_Ok in E.
  inv_bind H as lg E0. apply attr_Ok in E0.
  inv_bind H as hl E1. apply getitem_Ok in E1.
  inv_bind H as t2 E2.
  inv_bind H as p1 E3. apply getitem_Ok in E3.
  inv_bind H as u1 E4.
  inv_bind H as p2 E5. apply getitem_Ok in E5.
  inv_bind H as u2 E6.
  inv_bind H as p3 E7. apply getitem_Ok in E7.
  inv_bind H as u3 E8.
  inv_bind H as m4 E9.
  inv_bind E9 as p4 E10. apply getitem_Ok in E10.
  injection H as <-.
  exists tz, lg, hl, p1, p2, p3, p4, m4,
    (map_times (fun v => v + (tz - lg / 15))%float times), t2.
  assert (H2 : (if eq_str hl "None"
                then Ok (map_times (fun v => v + (tz - lg / 15))%float times)
                else adjustHighLats self
                       (map_times (fun v => v + (tz - lg / 15))%float times)) = Ok t2).
  { destruct (eq_str hl "None"); exact E2. }
  unfold spec_minute_offset.
  destruct (isMin p1) eqn:M1; [ inv_bind E4 as m1 F1 | ]; injection E4 as <-;
  (destruct (isMin p2) eqn:M2; [ inv_bind E6 as m2 F2 | ]; injection E6 as <-);
  (destruct (isMin p3) eqn:M3; [ inv_bind E8 as m3 F3 | ]; injection E8 as <-);
  simpl; repeat split; eauto.
Qed.

Lemma adjustTimes_order_witness :
  adjustTimes makkah_self solved_times = Ok adjusted_times /\
  exists (tz lg : float) (hl p_imsak p_maghrib p_isha p_dhuhr : pyval)
         (m_dhuhr : float) (t1 t2 : Times float),
    timeZone makkah_self.2 = Some tz /\ lng makkah_self.2 = Some lg /\
    settings makkah_self.1 !! "highLats" = Some hl /\
    settings makkah_self.1 !! "imsak" = Some p_imsak /\
    settings makkah_self.1 !! "maghrib" = Some p_maghrib /\
    settings makkah_self.1 !! "isha" = Some p_isha /\
    settings makkah_self.1 !! "dhuhr" = Some p_dhuhr /\
    t1 = map_times (fun v => v + (tz - lg / 15))%float solved_times /\
    (if eq_str hl "None" then Ok t1 else adjustHighLats makkah_self t1) = Ok t2 /\
    spec_minute_offset p_imsak (fajr t2) (imsak t2) (imsak adjusted_times) /\
    spec_minute_offset p_maghrib (sunset t2) (maghrib t2) (maghrib adjusted_times) /\
    spec_minute_offset p_isha (maghrib adjusted_times) (isha t2) (isha adjusted_times) /\
    eval p_dhuhr = Ok m_dhuhr /\
    dhuhr adjusted_times = (dhuhr t2 + m_dhuhr / 60)%float /\
    fajr adjusted_times = fajr t2 /\ sunrise adjusted_times = sunrise t2 /\
    asr adjusted_times = asr t2 /\
    sunset adjusted_times = sunset t2 /\ midnight adjusted_times = midnight t2.
Proof.
  assert (H : adjustTimes makkah_self solved_times = Ok adjusted_times)
    by (vm_compute; reflexivity).
  split; [ exact H | exact (adjustTimes_order makkah_self solved_times adjusted_times H) ].
Defined.

(** ** [getTimes] *)

Section GetTimes.
Variable libm : Libm.

(** [computeTimes] reads the class dictionaries, [timeFormat] and the
    five attributes [getTimes] has just assigned; not [calcMethod]. *)
Lemma computeTimes_reads (c : Class) (cm cm' tf : string) (l1 l2 l3 l4 l5 : option float) :
  computeTimes libm (c, {| calcMethod := cm; timeFormat := tf; lat := l1; lng := l2;
                           elv := l3; timeZone := l4; jDate := l5 |})
  = computeTimes libm (c, {| calcMethod := cm'; timeFormat := tf; lat := l1; lng := l2;
                             elv := l3; timeZone := l4; jDate := l5 |}).
Proof. reflexivity. Qed.

(** C3, as the code has it.  A call of [getTimes] leaves the class
    dictionaries ([methods], [settings], [offset]) and [calcMethod] as
    they were; the output format is the [format] argument when one is
    given (and the coordinates were read), the previous one otherwise; and
    the result is the same from any store with the same dictionaries and
    output format, whatever [calcMethod], [lat], [lng], [elv], [timeZone]
    and [jDate] an earlier call left. *)
Theorem getTimes_frame (date : date_arg) (coords : list float) (timezone : float)
    (dst : bool) (format : option string) (o : Obj) :
  let o' := (getTimes libm date coords timezone dst format o).2 in
  o'.1 = o.1 /\ calcMethod o'.2 = calcMethod o.2 /\
  timeFormat o'.2 = after_format format coords (timeFormat o.2) /\
  forall cm l1 l2 l3 l4 l5,
    (getTimes libm date coords timezone dst format
       (o.1, {| calcMethod := cm; timeFormat := timeFormat o.2; lat := l1; lng := l2;
                elv := l3; timeZone := l4; jDate := l5 |})).1
    = (getTimes libm date coords timezone dst format o).1.
Proof.
  destruct o as [c [cm0 tf0 a1 a2 a3 a4 a5]].
  destruct coords as [|a [|b rest]].
  1, 2: destruct format; repeat split; reflexivity.
  destruct rest as [|h rest]; destruct format as [f|];
    unfold getTimes; run_M.
  all: match goal with |- context [match ?x with Ok _ => _ | Raise _ => _ end] =>
         destruct x end; simpl.
  all: repeat split; try reflexivity.
  all: intros; apply computeTimes_reads.
Qed.

(** C10.  A [datetime.date] is replaced by the tuple of its year, month
    and day before anything reads it: result and store are the same. *)
Theorem getTimes_date_object (year month day : Z) (coords : list float)
    (timezone : float) (dst : bool) (format : option string) (o : Obj) :
  getTimes libm (DateObj year month day) coords timezone dst format o
  = getTimes libm (DateSeq [year; month; day]) coords timezone dst format o.
Proof. reflexivity. Qed.

End GetTimes.

(** A call with [format = 'Float'] on a freshly constructed instance
    returns, and leaves the instance on ['Float'] where it was on
    ['24h']: the format of a call survives it. *)
Lemma getTimes_format_survives :
  ~ (forall (libm : Libm) (date : date_arg) (coords : list float) (timezone : float)
            (dst : bool) (format : option string) (o : Obj) (r : Times fmtval),
       (getTimes libm date coords timezone dst format o).1 = Ok r ->
       timeFormat (getTimes libm date coords timezone dst format o).2.2 = timeFormat o.2).
Proof.
  intros H.
  pose (date := DateSeq [2024; 6; 21]).
  pose (coords := [11.495351; 79.759439; 0]%float).
  destruct (getTimes libm_nan date coords 5.5 false (Some "Float") constructed).1
    as [r|e] eqn:E; [ | vm_compute in E; discriminate E ].
  specialize (H libm_nan date coords 5.5%float false (Some "Float") constructed r E).
  vm_compute in H. discriminate H.
Qed.

(** ** The embedding on known values *)

Section Examples.

(** Formatting [13.5] gives ["13:30"] in ['24h'] and ["1:30pm"] in
    ['12h']; midnight is hour 12 in ['12h']. *)
Example format_half_past_one :
  getFormattedTime 13.5 "24h" None = Ok (FStr "13:30") /\
  getFormattedTime 13.5 "12h" None = Ok (FStr "1:30pm") /\
  getFormattedTime 13.5 "Float" None = Ok (FNum 13.5) /\
  getFormattedTime 0.2 "12h" None = Ok (FStr "12:12am").
Proof. vm_compute. auto. Qed.

Example julian_days :
  julian 2000 1 1 = Ok 2451544.5%float /\ julian 2024 6 21 = Ok 2460482.5%float.
Proof. vm_compute. auto. Qed.

Example eval_values :
  eval (PyStr "90 min") = Ok 90%float /\ eval (PyInt 18) = Ok 18%float /\
  eval (PyFloat 17.7) = Ok 17.7%float /\ eval (PyStr "Standard") = Ok 0%float /\
  eval (PyStr "1.2.3") = Raise ValueError.
Proof. vm_compute. auto. Qed.

Example repr_values :
  float_repr 19.5 = "19.5" /\ float_repr 0.1 = "0.1" /\ float_repr 18 = "18.0" /\
  float_repr 1e22 = "1e+22" /\ float_repr 0.00001 = "1e-05" /\
  float_repr 1e16 = "1e+16" /\ float_repr (1 / 3) = "0.3333333333333333".
Proof. vm_compute. repeat split. Qed.

Example fix_values :
  fixangle 370 = Ok 10%float /\ fixangle (-10) = Ok 350%float /\
  fixhour 24 = Ok 0%float /\ fixhour nan = Ok nan /\
  fixhour infinity = Raise OverflowError.
Proof. vm_compute. auto. Qed.

(** The method table after [__init__]: every entry has the two
    defaults, explicit values win. *)
Example defaults_filled :
  (params <$> methods_getitem (methods constructed.1) "MWL") ≫= (fun p => getitem p "maghrib")
    = Ok (PyStr "0 min") /\
  (params <$> methods_getitem (methods constructed.1) "Tehran") ≫= (fun p => getitem p "maghrib")
    = Ok (PyFloat 4.5) /\
  (params <$> methods_getitem (methods constructed.1) "Tehran") ≫= (fun p => getitem p "midnight")
    = Ok (PyStr "Jafari").
Proof. vm_compute. auto. Qed.

End Examples.

(* ===================================================================== *)
(** * Part III  Further properties of the code                            *)
(* ===================================================================== *)

(** ** [adjust] *)

(** X1.  [adjust] never raises and merges key by key: a key of the
    argument takes the argument's value, every other setting stays, and
    nothing but [settings] changes.  Two calls in a row are one call with
    the later argument laid over the earlier. *)
Theorem adjust_merges_and_composes (p q : gmap string pyval) (o : Obj) :
  (adjust p o).1 = Ok tt /\
  (forall k, settings (adjust p o).2.1 !! k
             = match p !! k with Some v => Some v | None => settings o.1 !! k end) /\
  methods (adjust p o).2.1 = methods o.1 /\
  offset (adjust p o).2.1 = offset o.1 /\
  (adjust p o).2.2 = o.2 /\
  adjust q (adjust p o).2 = adjust (q ∪ p) o.
Proof.
  repeat split.
  - intros k. cbn. rewrite lookup_union.
    destruct (p !! k), (settings o.1 !! k); reflexivity.
  - unfold adjust, update_attr, set_settings. cbn. now rewrite (assoc_L (∪)).
Qed.

(** ** [__init__] and the method table *)

Section Construction.

Lemma fill_defaults_lookup (p : gmap string pyval) (k : string) :
  fill_defaults p !! k = backfilled p k.
Proof.
  unfold fill_defaults, backfilled, default_of, defaultParams. cbn [foldl list_to_map foldr].
  destruct (decide (k = "maghrib")) as [->|Hk1];
    [ | destruct (decide (k = "midnight")) as [->|Hk2] ].
  - rewrite lookup_insert_eq.
    destruct (p !! "maghrib") as [[]|] eqn:E1; cbn;
      repeat (case_match; simplify_map_eq); try reflexivity; try congruence.
  - rewrite lookup_insert_ne, lookup_insert_eq by done.
    destruct (p !! "maghrib") as [[]|] eqn:E1; cbn;
      repeat (case_match; simplify_map_eq); try reflexivity; try congruence.
  - rewrite !lookup_insert_ne, lookup_empty by done.
    destruct (p !! "maghrib") as [[]|] eqn:E1; cbn;
      repeat (case_match; simplify_map_eq); try reflexivity; try congruence.
Qed.

Lemma fill_defaults_idem (p : gmap string pyval) :
  fill_defaults (fill_defaults p) = fill_defaults p.
Proof.
  apply map_eq. intros k. rewrite !fill_defaults_lookup.
  unfold backfilled at 1. rewrite fill_defaults_lookup.
  unfold backfilled, default_of, defaultParams. cbn [list_to_map foldr].
  destruct (decide (k = "maghrib")) as [->|Hk1];
    [ | destruct (decide (k = "midnight")) as [->|Hk2] ];
    simplify_map_eq; repeat (case_match; simplify_eq); reflexivity.
Qed.

Lemma filled_idem (kv : string * Method) : filled (filled kv) = filled kv.
Proof. unfold filled. cbn [fst snd name params]. now rewrite fill_defaults_idem. Qed.

Lemma init_methods_after (method : string) (o : Obj) :
  methods (init method o).2.1 = map filled (methods o.1).
Proof.
  unfold init. run_M. rewrite init_methods_eq. run_M.
  destruct (methods_getitem _ _); reflexivity.
Qed.

(** X2.  [__init__] back-fills the defaults into every entry of the
    method table and changes nothing else in it: the entries keep their
    keys, order and names, a parameter that is missing or [None] takes
    its default ([maghrib]: ['0 min'], [midnight]: ['Standard']), and an
    explicit value always wins. *)
Theorem init_backfills_defaults (method : string) (o : Obj) :
  Forall2 (fun old new =>
             new.1 = old.1 /\ name new.2 = name old.2 /\
             forall k, params new.2 !! k = backfilled (params old.2) k)
          (methods o.1) (methods (init method o).2.1).
Proof.
  rewrite init_methods_after.
  induction (methods o.1) as [|[key config] ms IH]; constructor; [ | exact IH ].
  cbn. repeat split. intros k. apply fill_defaults_lookup.
Qed.

(** The state [__init__] leaves, when the table is not empty. *)
Lemma init_state (method : string) (o : Obj) (last_key : string) (config : Method) :
  last (methods o.1).*1 = Some last_key ->
  methods_getitem (map filled (methods o.1)) last_key = Ok config ->
  init method o =
    (Ok tt,
     ({| methods := map filled (methods o.1);
         settings := params config ∪ settings o.1;
         offset := foldl (fun d name => <[name := PyInt 0]> d) (offset o.1) timeNames.*1 |},
      set_calcMethod last_key o.2)).
Proof.
  intros Hlast Hget. unfold init. run_M. rewrite init_methods_eq. run_M.
  assert (Hl : List.last (methods o.1).*1 method = last_key).
  { clear Hget. revert Hlast. generalize ((methods o.1).*1). intros l.
    induction l as [|x [|y l] IH]; intros H; [ discriminate | now injection H | ].
    change (List.last (y :: l) method = last_key). apply IH. exact H. }
  rewrite Hl.
  assert (Hin : last_key ∈ (map filled (methods o.1)).*1).
  { rewrite filled_keys. apply last_Some_elem_of in Hlast. exact Hlast. }
  unfold in_methods. rewrite bool_decide_eq_true_2 by exact Hin.
  rewrite Hget. cbn. unfold set_settings, set_offset. cbn.
  now rewrite assign_items_union.
Qed.

Lemma last_key_exists (ms : list (string * Method)) :
  ms <> [] -> exists last_key config,
    last ms.*1 = Some last_key /\ methods_getitem (map filled ms) last_key = Ok config.
Proof.
  intros Hne.
  destruct (last ms.*1) as [k|] eqn:E.
  - assert (Hin : k ∈ (map filled ms).*1)
      by (rewrite filled_keys; now apply last_Some_elem_of).
    destruct (methods_getitem_in _ _ Hin) as [config Hc]. now exists k, config.
  - apply last_None in E. destruct ms; [ congruence | discriminate ].
Qed.

(** X3.  The argument of the constructor has no effect.  The loop over
    the table reuses its name, so with a table that is not empty
    [__init__] does the same for every [method], known or unknown: it
    configures the last entry of the table. *)
Theorem constructor_ignores_method (method method' : string) (o : Obj) :
  methods o.1 <> [] ->
  init method o = init method' o /\
  last (methods o.1).*1 = Some (calcMethod (init method o).2.2).
Proof.
  intros Hne. destruct (last_key_exists _ Hne) as (k & config & Hk & Hc).
  rewrite (init_state method o k config Hk Hc), (init_state method' o k config Hk Hc).
  split; [ reflexivity | exact Hk ].
Qed.

Lemma constructor_ignores_method_witness :
  methods (class0, fresh).1 <> [] /\
  init "MWL" (class0, fresh) = init "Karachi" (class0, fresh) /\
  last (methods (class0, fresh).1).*1 = Some (calcMethod (init "MWL" (class0, fresh)).2.2).
Proof.
  assert (H : methods (class0, fresh).1 <> []) by discriminate.
  split; [ exact H | exact (constructor_ignores_method "MWL" "Karachi" (class0, fresh) H) ].
Defined.

Lemma map_filled_idem (ms : list (string * Method)) :
  map filled (map filled ms) = map filled ms.
Proof.
  induction ms as [|kv ms IH]; [ reflexivity | cbn [map]; now rewrite filled_idem, IH ].
Qed.

Lemma zero_offsets_idem (d : gmap string pyval) (names : list string) :
  foldl (fun d name => <[name := PyInt 0]> d)
        (foldl (fun d name => <[name := PyInt 0]> d) d names) names
  = foldl (fun d name => <[name := PyInt 0]> d) d names.
Proof.
  apply map_eq. intros k.
  assert (L : forall (l : list string) (m : gmap string pyval),
             foldl (fun d name => <[name := PyInt 0]> d) m l !! k
             = if bool_decide (k ∈ l) then Some (PyInt 0) else m !! k).
  { induction l as [|x l IH]; intros m; cbn [foldl].
    - reflexivity.
    - rewrite IH. destruct (decide (k = x)) as [->|Hne].
      + rewrite lookup_insert_eq.
        rewrite (bool_decide_eq_true_2 (x ∈ x :: l)) by left.
        now destruct (bool_decide (x ∈ l)).
      + rewrite lookup_insert_ne by congruence.
        destruct (bool_decide (k ∈ l)) eqn:E.
        * apply bool_decide_eq_true_1 in E.
          now rewrite (bool_decide_eq_true_2 (k ∈ x :: l)) by (now right).
        * apply bool_decide_eq_false_1 in E.
          rewrite (bool_decide_eq_false_2 (k ∈ x :: l)); [ reflexivity | ].
          intros [->|H]%elem_of_cons; [ congruence | contradiction ]. }
  rewrite !L. now destruct (bool_decide (k ∈ names)).
Qed.

(** X4.  Constructing once more changes nothing in the shared
    dictionaries: after one [__init__], a second one (on any instance,
    with any argument) leaves [methods], [settings] and [offset] exactly
    as they are. *)
Theorem constructing_again_changes_nothing (method method' : string) (o : Obj) (s : Self) :
  methods o.1 <> [] ->
  (init method' ((init method o).2.1, s)).2.1 = (init method o).2.1.
Proof.
  intros Hne. destruct (last_key_exists _ Hne) as (k & config & Hk & Hc).
  rewrite (init_state method o k config Hk Hc). cbn [fst snd].
  rewrite (init_state method' _ k config); cbn [fst snd methods settings offset].
  - f_equal.
    + apply map_filled_idem.
    + apply map_eq. intros j. rewrite !lookup_union.
      destruct (params config !! j), (settings o.1 !! j); reflexivity.
    + apply zero_offsets_idem.
  - now rewrite filled_keys.
  - now rewrite map_filled_idem.
Qed.

Lemma constructing_again_changes_nothing_witness :
  methods (class0, fresh).1 <> [] /\
  (init "ISNA" ((init "MWL" (class0, fresh)).2.1, fresh)).2.1
  = (init "MWL" (class0, fresh)).2.1.
Proof.
  assert (H : methods (class0, fresh).1 <> []) by discriminate.
  split; [ exact H
         | exact (constructing_again_changes_nothing "MWL" "ISNA" (class0, fresh) fresh H) ].
Defined.

End Construction.

(** ** Offsets after construction *)

Section ZeroOffsets.

Lemma Prim2SF_zero : Prim2SF 0 = S754_zero false.
Proof. reflexivity. Qed.

(** Adding [0.0] changes no float but [-0.0]. *)
Lemma add_zero_r (v : float) : v <> (-0)%float -> (v + 0 = v)%float.
Proof.
  intros Hv. apply Prim2SF_inj. rewrite add_spec, Prim2SF_zero.
  destruct (Prim2SF v) as [s|s| |s m e] eqn:E; try reflexivity.
  destruct s; [ | reflexivity ].
  exfalso. apply Hv. apply Prim2SF_inj. rewrite E. reflexivity.
Qed.

Lemma zero_offsets_lookup (d : gmap string pyval) (k : string) :
  k ∈ timeNames.*1 ->
  foldl (fun d name => <[name := PyInt 0]> d) d timeNames.*1 !! k = Some (PyInt 0).
Proof.
  intros Hk. cbn in Hk. cbn [foldl timeNames fmap list_fmap fst].
  repeat (apply elem_of_cons in Hk as [->|Hk];
          [ now repeat (rewrite lookup_insert_ne by done); rewrite ?lookup_insert_eq | ]).
  now apply elem_of_nil in Hk.
Qed.

Lemma tune1_zero (self : Obj) (k : string) (v : float) :
  offset self.1 !! k = Some (PyInt 0) -> tune1 self k v = Ok (v + 0)%float.
Proof. intros H. unfold tune1, getitem. now rewrite H. Qed.

(** X5.  [__init__] sets the offset of each of the nine events to [0].
    On the store it leaves, [tuneTimes] finds every offset (no
    [KeyError]) and adds [0.0] to every time, which moves none of them. *)
Theorem tuneTimes_after_construction (method : string) (o : Obj) (times : Times float) :
  methods o.1 <> [] ->
  (forall k, k ∈ timeNames.*1 -> offset (init method o).2.1 !! k = Some (PyInt 0)) /\
  tuneTimes (init method o).2 times = Ok (map_times (fun v => v + 0)%float times) /\
  (forall v : float, v <> (-0)%float -> (v + 0 = v)%float).
Proof.
  intros Hne. destruct (last_key_exists _ Hne) as (k & config & Hk & Hc).
  rewrite (init_state method o k config Hk Hc). cbn [fst snd offset].
  assert (Z : forall j, j ∈ timeNames.*1 ->
              foldl (fun d name => <[name := PyInt 0]> d) (offset o.1) timeNames.*1 !! j
              = Some (PyInt 0)) by (intros j; apply zero_offsets_lookup).
  split; [ exact Z | split; [ | exact add_zero_r ] ].
  unfold tuneTimes.
  rewrite !tune1_zero by (cbn [fst offset]; apply Z; cbn; set_solver).
  unfold map_times. cbn. destruct (midnight times) as [v|]; cbn.
  - rewrite tune1_zero by (cbn [fst offset]; apply Z; cbn; set_solver). reflexivity.
  - reflexivity.
Qed.

Lemma tuneTimes_after_construction_witness :
  methods (class0, fresh).1 <> [] /\
  (forall k, k ∈ timeNames.*1 ->
             offset (init "MWL" (class0, fresh)).2.1 !! k = Some (PyInt 0)) /\
  tuneTimes (init "MWL" (class0, fresh)).2 solved_times
  = Ok (map_times (fun v => v + 0)%float solved_times) /\
  (forall v : float, v <> (-0)%float -> (v + 0 = v)%float).
Proof.
  assert (H : methods (class0, fresh).1 <> []) by discriminate.
  split; [ exact H | exact (tuneTimes_after_construction "MWL" (class0, fresh) solved_times H) ].
Defined.

End ZeroOffsets.

(** ** [setMethod] with a known method *)

Section SetMethod.

Lemma methods_getitem_elem (ms : list (string * Method)) (k : string) (config : Method) :
  methods_getitem ms k = Ok config -> (k, config) ∈ ms.
Proof.
  unfold methods_getitem.
  destruct (list_find (fun kv => kv.1 = k) ms) as [[i [k' c]]|] eqn:E; [ | discriminate ].
  intros [= <-]. apply list_find_Some in E as (Hi & Hk & _). cbn in Hk. subst k'.
  now apply list_elem_of_lookup_2 in Hi.
Qed.

Lemma union_absorbs (p1 p2 s : gmap string pyval) :
  dom p1 ⊆ dom p2 -> p2 ∪ (p1 ∪ s) = p2 ∪ s.
Proof.
  intros Hd. apply map_eq. intros k. rewrite !lookup_union.
  destruct (p2 !! k) as [v2|] eqn:E2; [ now destruct (p1 !! k), (s !! k) | ].
  assert (p1 !! k = None) as ->.
  { apply not_elem_of_dom. intros Hin. apply Hd in Hin.
    apply elem_of_dom in Hin as [? ?]. congruence. }
  now destruct (s !! k).
Qed.

(** After [__init__] every method of the shipped table has the same four
    parameters. *)
Lemma shipped_methods_same_keys :
  Forall (fun kc : string * Method =>
            dom (params kc.2) = ({[ "fajr"; "isha"; "maghrib"; "midnight" ]} : gset string))
         (methods constructed.1).
Proof.
  repeat (constructor; [ apply (bool_decide_unpack _); vm_compute; exact I | ]).
  constructor.
Qed.

Lemma setMethod_known (method : string) (o : Obj) (config : Method) :
  methods_getitem (methods o.1) method = Ok config ->
  setMethod method o
  = (Ok tt, (set_settings (params config ∪ settings o.1) o.1, set_calcMethod method o.2)).
Proof.
  intros Hc. unfold setMethod. run_M.
  assert (Hin : method ∈ (methods o.1).*1).
  { apply methods_getitem_elem in Hc. apply list_elem_of_fmap. now exists (method, config). }
  unfold in_methods. rewrite bool_decide_eq_true_2 by exact Hin.
  rewrite Hc. reflexivity.
Qed.

(** X6.  With the table as [__init__] leaves it, [setMethod] for a
    method of the table returns, and leaves no trace of the method that
    was set before: [setMethod(m2)] after [setMethod(m1)] gives the same
    settings and the same [calcMethod] as [setMethod(m2)] alone (so the
    [maghrib] angle and ['Jafari'] midnight of Tehran do not survive a
    switch to MWL). *)
Theorem setMethod_replaces_previous (m1 m2 : string) (o : Obj) :
  methods o.1 = methods constructed.1 ->
  in_methods m1 (methods o.1) = true ->
  in_methods m2 (methods o.1) = true ->
  (setMethod m2 o).1 = Ok tt /\
  setMethod m2 (setMethod m1 o).2 = setMethod m2 o.
Proof.
  intros Hms H1 H2.
  apply bool_decide_eq_true_1 in H1, H2.
  destruct (methods_getitem_in _ _ H1) as [c1 Hc1].
  destruct (methods_getitem_in _ _ H2) as [c2 Hc2].
  rewrite (setMethod_known m1 o c1 Hc1), (setMethod_known m2 o c2 Hc2).
  split; [ reflexivity | ].
  rewrite (setMethod_known m2 _ c2) by exact Hc2.
  cbn [fst snd]. unfold set_settings, set_calcMethod. cbn.
  do 3 f_equal. apply union_absorbs.
  pose proof shipped_methods_same_keys as F. rewrite <- Hms in F.
  rewrite Forall_forall in F.
  pose proof (F _ (methods_getitem_elem _ _ _ Hc1)) as D1.
  pose proof (F _ (methods_getitem_elem _ _ _ Hc2)) as D2.
  cbn [snd] in D1, D2. rewrite D1, D2. reflexivity.
Qed.

Lemma setMethod_replaces_previous_witness :
  methods constructed.1 = methods constructed.1 /\
  in_methods "Tehran" (methods constructed.1) = true /\
  in_methods "MWL" (methods constructed.1) = true /\
  (setMethod "MWL" constructed).1 = Ok tt /\
  setMethod "MWL" (setMethod "Tehran" constructed).2 = setMethod "MWL" constructed.
Proof.
  assert (H1 : in_methods "Tehran" (methods constructed.1) = true) by (vm_compute; reflexivity).
  assert (H2 : in_methods "MWL" (methods constructed.1) = true) by (vm_compute; reflexivity).
  split; [ reflexivity | split; [ exact H1 | split; [ exact H2 | ] ] ].
  exact (setMethod_replaces_previous "Tehran" "MWL" constructed eq_refl H1 H2).
Defined.

End SetMethod.

(** ** [eval] on numbers and on numbers with a unit *)

Section EvalNumbers.

Lemma string_app_cons (c : ascii) (s t : string) : String c s ++ t = String c (s ++ t).
Proof. reflexivity. Qed.

Lemma string_app_nil_r (s : string) : s ++ "" = s.
Proof.
  induction s as [|c s IH]; [ reflexivity | rewrite string_app_cons; now rewrite IH ].
Qed.

Lemma string_app_assoc (s1 s2 s3 : string) : (s1 ++ s2) ++ s3 = s1 ++ (s2 ++ s3).
Proof.
  induction s1 as [|c s1 IH]; [ reflexivity | rewrite !string_app_cons; now rewrite IH ].
Qed.















(** X8.  The names of the asr methods are matched exactly.  ['Standard']
    is the factor 1 and ['Hanafi'] the factor 2; any other string that
    does not start with a number (['hanafi'], ['Shafi'], the empty
    string) is not an error: it is the factor 0. *)
Theorem asrFactor_unknown_name_is_zero (s : string) :
  (s = "" \/ exists c r, s = String c r /\ numeric_char c = false) ->
  s <> "Standard" -> s <> "Hanafi" ->
  asrFactor (PyStr s) = Ok 0%float /\
  asrFactor (PyStr "Standard") = Ok 1%float /\
  asrFactor (PyStr "Hanafi") = Ok 2%float.
Proof.
  intros Hs H1 H2. split; [ | split; reflexivity ].
  unfold asrFactor, eq_str.
  apply String.eqb_neq in H1, H2. rewrite H1, H2.
  apply leading_token_empty in Hs. unfold eval. cbn [str]. now rewrite Hs.
Qed.

Lemma asrFactor_unknown_name_is_zero_witness :
  ("hanafi" = "" \/ exists c r, "hanafi" = String c r /\ numeric_char c = false) /\
  "hanafi" <> "Standard" /\ "hanafi" <> "Hanafi" /\
  asrFactor (PyStr "hanafi") = Ok 0%float /\
  asrFactor (PyStr "Standard") = Ok 1%float /\
  asrFactor (PyStr "Hanafi") = Ok 2%float.
Proof.
  assert (H : "hanafi" = "" \/ exists c r, "hanafi" = String c r /\ numeric_char c = false).
  { right. exists "h"%char, "anafi". split; reflexivity. }
  assert (H1 : "hanafi" <> "Standard") by discriminate.
  assert (H2 : "hanafi" <> "Hanafi") by discriminate.
  split; [ exact H | split; [ exact H1 | split; [ exact H2 | ] ] ].
  exact (asrFactor_unknown_name_is_zero "hanafi" H H1 H2).
Defined.

End EvalNumbers.

(** ** Infinite times, negative elevations, short arguments *)

Section EdgeInputs.

Lemma isinf_spec (x : float) :
  math_isinf x = match Prim2SF x with S754_infinity _ => true | _ => false end.
Proof.
  unfold math_isinf, is_infinity. rewrite FloatAxioms.eqb_spec, abs_spec.
  destruct (Prim2SF x) as [s|s| |s m e]; reflexivity.
Qed.

(** X9.  An infinite time is not rendered as the sentinel.  Under
    ['Float'] it is returned as it is; under every other format
    [fixhour] reaches [math.floor] of an infinity and [getFormattedTime]
    raises [OverflowError]. *)
Theorem getFormattedTime_infinite (time : float) (format : string)
    (suffixes : option (list string)) :
  math_isinf time = true ->
  getFormattedTime time format suffixes
  = if String.eqb format "Float" then Ok (FNum time) else Raise OverflowError.
Proof.
  rewrite isinf_spec. intros Hinf.
  destruct (Prim2SF time) as [| s | |] eqn:E; try discriminate.
  unfold getFormattedTime.
  assert (Hn : math_isnan time = false) by (rewrite isnan_spec, E; reflexivity).
  rewrite Hn. destruct (String.eqb format "Float"); [ reflexivity | ].
  assert (Ha : Prim2SF (time + 0.5 / 60) = S754_infinity s).
  { rewrite add_spec, E. reflexivity. }
  unfold fixhour, fix_.
  assert (Hn' : math_isnan (time + 0.5 / 60) = false) by (rewrite isnan_spec, Ha; reflexivity).
  rewrite Hn'. unfold truediv. change (24 =? 0)%float with false. cbn [mbind result_bind].
  unfold math_floor. rewrite div_spec, Ha. reflexivity.
Qed.

Lemma getFormattedTime_infinite_witness :
  math_isinf infinity = true /\
  getFormattedTime infinity "12h" None
  = if String.eqb "12h" "Float" then Ok (FNum infinity) else Raise OverflowError.
Proof.
  assert (H : math_isinf infinity = true) by reflexivity.
  split; [ exact H | exact (getFormattedTime_infinite infinity "12h" None H) ].
Defined.

Lemma sqrt_negative (e : float) : (e <? 0)%float = true -> math_sqrt e = Raise ValueError.
Proof.
  rewrite ltb_spec. change (Prim2SF 0) with (S754_zero false). intros H.
  unfold math_sqrt. rewrite !isnan_spec, sqrt_spec.
  destruct (Prim2SF e) as [s|s| |s m x]; try discriminate H;
    destruct s; try discriminate H; reflexivity.
Qed.

Variable libm : Libm.

(** What a returning call of [getTimes] has computed on. *)
Lemma getTimes_Ok (date : date_arg) (coords : list float) (timezone : float)
    (dst : bool) (format : option string) (o : Obj) (r : Times fmtval) :
  (getTimes libm date coords timezone dst format o).1 = Ok r ->
  exists self : Obj,
    computeTimes libm self = Ok r /\
    elv self.2 = Some (default 0%float (coords !! 2%nat)) /\
    (2 <= length coords)%nat /\
    (3 <= length (match date with
                  | DateObj y m d => [y; m; d]
                  | DateSeq items => items
                  end))%nat.
Proof.
  destruct o as [c [cm0 tf0 a1 a2 a3 a4 a5]].
  destruct coords as [|a [|b rest]]; [ discriminate | discriminate | ].
  set (items := match date with DateObj y m d => [y; m; d] | DateSeq l => l end).
  assert (Hi : (3 <= length items)%nat \/
               (y ← index items 0; m ← index items 1; d ← index items 2; julian y m d)
               = Raise IndexError).
  { destruct items as [|y [|m [|d l]]]; [ right | right | right | left ];
      try reflexivity. cbn. lia. }
  destruct Hi as [Hi|Hi].
  - destruct rest as [|h rest]; destruct format as [f|];
      unfold getTimes; run_M; fold items;
      match goal with |- context [match ?x with Ok _ => _ | Raise _ => _ end] =>
        destruct x end; cbn [fst]; try discriminate;
      intros H; eexists; (split; [ exact H | ]); cbn; repeat split; lia.
  - destruct rest as [|h rest]; destruct format as [f|];
      unfold getTimes; run_M; fold items;
      unfold mbind in Hi; rewrite Hi; discriminate.
Qed.

(** X10.  A negative elevation is not turned into the sentinel: with
    [coords[2] < 0], [riseSetAngle] takes the square root of a negative
    number, and [getTimes] never returns a table of times, whatever the
    date, the place and the [math] library. *)
Theorem getTimes_negative_elevation (date : date_arg) (coords : list float)
    (timezone : float) (dst : bool) (format : option string) (o : Obj) (e : float) :
  coords !! 2%nat = Some e -> (e <? 0)%float = true ->
  forall r, (getTimes libm date coords timezone dst format o).1 <> Ok r.
Proof.
  intros He Hneg r H.
  apply getTimes_Ok in H as (self & H & Helv & _). rewrite He in Helv. cbn in Helv.
  unfold computeTimes in H. inv_bind H as t1 E1. clear H.
  unfold numIterations, iterate in E1. inv_bind E1 as t0 E0. clear E1.
  unfold computePrayerTimes in E0.
  inv_bind E0 as x1 F1. inv_bind E0 as x2 F2. inv_bind E0 as x3 F3.
  inv_bind E0 as x4 F4. inv_bind E0 as x5 F5. clear E0.
  rewrite Helv in F5. cbn in F5. unfold riseSetAngle in F5.
  now rewrite (sqrt_negative e Hneg) in F5.
Qed.

(** X11.  [getTimes] needs two coordinates and three date items: with
    fewer of either it raises [IndexError] (a [datetime.date] always has
    the three). *)
Theorem getTimes_short_arguments (items : list Z) (coords : list float)
    (timezone : float) (dst : bool) (format : option string) (o : Obj) :
  (length coords < 2)%nat \/ (length items < 3)%nat ->
  (getTimes libm (DateSeq items) coords timezone dst format o).1 = Raise IndexError.
Proof.
  intros H. destruct o as [c s].
  destruct coords as [|a [|b rest]]; [ reflexivity | reflexivity | ].
  destruct H as [H|H]; [ cbn in H; lia | ].
  assert (Hi : (y ← index items 0; m ← index items 1; d ← index items 2; julian y m d)
               = Raise IndexError).
  { destruct items as [|y [|m [|d l]]]; try reflexivity. cbn in H. lia. }
  destruct rest as [|h rest]; destruct format as [f|];
    unfold getTimes; run_M; unfold mbind in Hi; now rewrite Hi.
Qed.

(** X12.  Every table [getTimes] returns has all nine events: the
    [midnight] entry is always there. *)
Theorem getTimes_has_midnight (date : date_arg) (coords : list float)
    (timezone : float) (dst : bool) (format : option string) (o : Obj)
    (r : Times fmtval) :
  (getTimes libm date coords timezone dst format o).1 = Ok r ->
  exists v, midnight r = Some v.
Proof.
  intros H. apply getTimes_Ok in H as (self & H & _).
  unfold computeTimes in H.
  inv_bind H as t1 E1. inv_bind H as t2 E2. inv_bind H as md E3. inv_bind H as d E4.
  inv_bind H as t3 E5.
  unfold tuneTimes in E5. cbn [midnight set_midnight] in E5.
  repeat (let v := fresh "v" in let E := fresh "E" in inv_bind E5 as v E).
  injection E5 as <-.
  match goal with
  | E : Some <$> ?x = Ok ?v |- _ =>
      destruct x as [m|]; [ injection E as <- | discriminate E ]
  end.
  unfold modifyFormats in H. cbn [midnight] in H.
  repeat (let v := fresh "w" in let E := fresh "G" in inv_bind H as v E).
  injection H as <-. cbn [midnight].
  match goal with
  | G : Some <$> ?x = Ok ?w |- exists v, ?w = Some v =>
      destruct x as [f|]; [ injection G as <- | discriminate G ]
  end.
  eauto.
Qed.

End EdgeInputs.

Lemma getTimes_negative_elevation_witness :
  [11.495351; 79.759439; -430]%float !! 2%nat = Some (-430)%float /\
  (-430 <? 0)%float = true /\
  forall r, (getTimes libm_nan (DateSeq [2024; 6; 21]) [11.495351; 79.759439; -430]%float
               5.5 false None constructed).1 <> Ok r.
Proof.
  assert (H1 : [11.495351; 79.759439; -430]%float !! 2%nat = Some (-430)%float)
    by reflexivity.
  assert (H2 : (-430 <? 0)%float = true) by reflexivity.
  split; [ exact H1 | split; [ exact H2 | ] ].
  exact (getTimes_negative_elevation libm_nan (DateSeq [2024; 6; 21])
           [11.495351; 79.759439; -430]%float 5.5%float false None constructed
           (-430)%float H1 H2).
Defined.

Lemma getTimes_short_arguments_witness :
  ((length [11.495351; 79.759439]%float < 2)%nat \/ (length [2024; 6] < 3)%nat) /\
  (getTimes libm_nan (DateSeq [2024; 6]) [11.495351; 79.759439]%float
     5.5 false None constructed).1 = Raise IndexError.
Proof.
  assert (H : (length [11.495351; 79.759439]%float < 2)%nat \/ (length [2024; 6] < 3)%nat)
    by (right; cbn; lia).
  split; [ exact H
         | exact (getTimes_short_arguments libm_nan [2024; 6] [11.495351; 79.759439]%float
                    5.5%float false None constructed H) ].
Defined.

Lemma getTimes_has_midnight_witness :
  (getTimes libm_nan (DateSeq [2024; 6; 21]) [11.495351; 79.759439; 0]%float
     5.5 false None constructed).1
  = Ok {| imsak := FStr "-----"; fajr := FStr "-----"; sunrise := FStr "-----";
          dhuhr := FStr "-----"; asr := FStr "-----"; sunset := FStr "-----";
          maghrib := FStr "-----"; isha := FStr "-----";
          midnight := Some (FStr "-----") |} /\
  exists v, midnight {| imsak := FStr "-----"; fajr := FStr "-----";
                        sunrise := FStr "-----"; dhuhr := FStr "-----";
                        asr := FStr "-----"; sunset := FStr "-----";
                        maghrib := FStr "-----"; isha := FStr "-----";
                        midnight := Some (FStr "-----") |} = Some v.
Proof.
  assert (H : (getTimes libm_nan (DateSeq [2024; 6; 21]) [11.495351; 79.759439; 0]%float
                 5.5 false None constructed).1
              = Ok {| imsak := FStr "-----"; fajr := FStr "-----"; sunrise := FStr "-----";
                      dhuhr := FStr "-----"; asr := FStr "-----"; sunset := FStr "-----";
                      maghrib := FStr "-----"; isha := FStr "-----";
                      midnight := Some (FStr "-----") |})
    by (vm_compute; reflexivity).
  split; [ exact H | ].
  exact (getTimes_has_midnight libm_nan (DateSeq [2024; 6; 21])
           [11.495351; 79.759439; 0]%float 5.5%float false None constructed _ H).
Defined.

(** ** [adjust_time] and [adjust_time_negative] *)

Section AdjustTime.

Lemma forallb_seqZ (f : Z -> bool) (a n : Z) :
  forallb f (seqZ a n) = true -> forall x, a <= x < a + n -> f x = true.
Proof.
  intros H x Hx. rewrite forallb_forall in H. apply H.
  apply list_elem_of_In. now apply elem_of_seqZ.
Qed.

Lemma digit_between_bounds (lo hi : Z) (c : ascii) :
  digit_between lo hi c = true -> lo <= digit_val c <= hi.
Proof. unfold digit_between. intros [[_ H1]%andb_prop H2]%andb_prop. lia. Qed.

Lemma is_digit_bounds (c : ascii) : is_digit c = true -> 0 <= digit_val c <= 9.
Proof.
  unfold is_digit, digit_val. intros [H1 H2]%andb_prop.
  apply N.leb_le in H1, H2. lia.
Qed.

Lemma group_I_bounds (s : string) (h : Z) (r : string) :
  (h, r) ∈ group_I s -> 1 <= h <= 12.
Proof.
  unfold group_I. intros H.
  repeat (apply elem_of_app in H as [H|H]);
    repeat case_match; try (now apply elem_of_nil in H);
    apply list_elem_of_singleton in H; injection H as -> ->;
    match goal with E : digit_between _ _ _ = true |- _ =>
      apply digit_between_bounds in E end; lia.
Qed.

Lemma group_M_bounds (s : string) (m : Z) (r : string) :
  (m, r) ∈ group_M s -> 0 <= m <= 59.
Proof.
  unfold group_M. intros H.
  repeat (apply elem_of_app in H as [H|H]);
    repeat case_match; try (now apply elem_of_nil in H);
    apply list_elem_of_singleton in H; injection H as -> ->.
  - match goal with E : _ && _ = true |- _ => apply andb_prop in E as [E1 E2] end.
    apply digit_between_bounds in E1. apply is_digit_bounds in E2. lia.
  - match goal with E : is_digit _ = true |- _ => apply is_digit_bounds in E end. lia.
Qed.

(** A parsed time is a minute of the first of January 1900. *)
Lemma strptime_range (s : string) (d : datetime) :
  strptime_I_M_p s = Ok d -> d.1 = ordinal_1900_01_01 /\ 0 <= d.2 < 1440.
Proof.
  unfold strptime_I_M_p.
  destruct (regex_I_M_p s) as [[[[h m] pm] rest]|] eqn:E; [ | discriminate ].
  destruct rest; [ | discriminate ]. intros [= <-]. cbn [fst snd].
  unfold regex_I_M_p in E. apply head_Some_elem_of in E.
  apply list_elem_of_bind in E as ([h' r1] & E & Hh).
  apply list_elem_of_bind in E as (r2 & E & Hc).
  apply list_elem_of_bind in E as ([m' r3] & E & Hm).
  apply list_elem_of_bind in E as ([p r4] & E & Hp).
  apply list_elem_of_singleton in E. injection E as -> -> -> _.
  apply group_I_bounds in Hh. apply group_M_bounds in Hm.
  split; [ reflexivity | ]. destruct p; destruct (h' =? 12) eqn:E12; lia.
Qed.

(** X13.  [adjust_time_negative(s, n)] is [adjust_time(s, -n)]: the same
    string, or the same exception, for every string and every [n]. *)
Theorem adjust_time_negative_is_adjust_time (time_str : string) (minutes : Z) :
  adjust_time_negative time_str minutes = adjust_time time_str (- minutes).
Proof.
  unfold adjust_time_negative, adjust_time.
  destruct (strptime_I_M_p (upper time_str)) as [[ord t]|e] eqn:E; [ | reflexivity ].
  apply strptime_range in E as [Hord Ht]. cbn [fst snd] in Hord, Ht. subst ord.
  cbn [mbind result_bind]. unfold timedelta_minutes.
  destruct (999999999 <? Z.abs (minutes `div` 1440)) eqn:C1;
    destruct (999999999 <? Z.abs ((- minutes) `div` 1440)) eqn:C2;
    cbn [mbind result_bind]; try reflexivity.
  - apply Z.ltb_lt in C1. apply Z.ltb_ge in C2.
    unfold datetime_add, ordinal_1900_01_01, MAXORDINAL. cbn [fst snd].
    destruct ((1 <=? 693596 + (t + - minutes) `div` 1440)
              && (693596 + (t + - minutes) `div` 1440 <=? 3652059)) eqn:R;
      [ exfalso | reflexivity ].
    apply andb_prop in R as [R1 R2]. apply Z.leb_le in R1, R2.
    revert C1 C2 R1 R2. Z.to_euclidean_division_equations. lia.
  - apply Z.ltb_ge in C1. apply Z.ltb_lt in C2.
    unfold datetime_add, ordinal_1900_01_01, MAXORDINAL. cbn [fst snd].
    destruct ((1 <=? 693596 + (t + - minutes) `div` 1440)
              && (693596 + (t + - minutes) `div` 1440 <=? 3652059)) eqn:R;
      [ exfalso | reflexivity ].
    apply andb_prop in R as [R1 R2]. apply Z.leb_le in R1, R2.
    revert C1 C2 R1 R2. Z.to_euclidean_division_equations. lia.
Qed.

Lemma strftime_rejected :
  forallb (fun t => rejects (strftime_I_M_p (0, t))) (seqZ 0 1440) = true.
Proof. vm_compute. reflexivity. Qed.

Lemma datetime_add_range (d d' : datetime) (delta : Z) :
  datetime_add d delta = Ok d' -> 0 <= d'.2 < 1440.
Proof.
  unfold datetime_add. case_match; [ | discriminate ]. intros [= <-]. cbn [snd].
  apply Z.mod_pos_bound. lia.
Qed.

Lemma adjust_time_output (time_str : string) (minutes : Z) (r : string) :
  adjust_time time_str minutes = Ok r ->
  exists t, 0 <= t < 1440 /\ r = strftime_I_M_p (0, t).
Proof.
  unfold adjust_time. intros H.
  inv_bind H as d0 E0. inv_bind H as delta E1. inv_bind H as d1 E2.
  injection H as <-. apply datetime_add_range in E2.
  exists d1.2. split; [ exact E2 | reflexivity ].
Qed.

(** X14.  What [adjust_time] returns cannot be given to it again.  It
    reads ['%I:%M%p'] and writes ['%I:%M %p'], with a blank: on each of
    its own results, [adjust_time] and [adjust_time_negative] raise
    [ValueError]. *)
Theorem adjust_time_rejects_its_output (time_str : string) (minutes : Z) (r : string) :
  adjust_time time_str minutes = Ok r ->
  forall n, adjust_time r n = Raise ValueError /\
            adjust_time_negative r n = Raise ValueError.
Proof.
  intros H n. apply adjust_time_output in H as (t & Ht & ->).
  pose proof (forallb_seqZ _ _ _ strftime_rejected t ltac:(lia)) as R.
  unfold rejects in R. unfold adjust_time, adjust_time_negative.
  destruct (strptime_I_M_p (upper (strftime_I_M_p (0, t)))) as [d|[]];
    try discriminate R; split; reflexivity.
Qed.

Lemma adjust_time_rejects_its_output_witness :
  adjust_time "4:30am" 5 = Ok "04:35 AM" /\
  forall n, adjust_time "04:35 AM" n = Raise ValueError /\
            adjust_time_negative "04:35 AM" n = Raise ValueError.
Proof.
  assert (H : adjust_time "4:30am" 5 = Ok "04:35 AM") by (vm_compute; reflexivity).
  split; [ exact H | exact (adjust_time_rejects_its_output "4:30am" 5 "04:35 AM" H) ].
Defined.

Lemma formatted_12h_read :
  forallb (fun t => reads_as (formatted_12h (t `div` 60) (t `mod` 60)) t) (seqZ 0 1440)
  = true.
Proof. vm_compute. reflexivity. Qed.

Lemma formatted_24h_rejected :
  forallb (fun t => rejects (formatted_24h (t `div` 60) (t `mod` 60))) (seqZ 0 1440) = true.
Proof. vm_compute. reflexivity. Qed.

Lemma clock_of_minute (hours minutes : Z) :
  0 <= hours < 24 -> 0 <= minutes < 60 ->
  0 <= hours * 60 + minutes < 1440 /\
  (hours * 60 + minutes) `div` 60 = hours /\ (hours * 60 + minutes) `mod` 60 = minutes.
Proof.
  intros Hh Hm. split; [ lia | ].
  split; [ symmetry; apply (Z.div_unique _ 60 hours minutes); lia
         | symmetry; apply (Z.mod_unique _ 60 hours minutes); lia ].
Qed.

(** X15.  [adjust_time] reads the clock strings of [getFormattedTime]
    under ['12h'] back as the hour and minute they were built from
    (['12:05am'] is minute 5 of the day, ['12:05pm'] minute 725), moves
    the clock by [n] minutes around the day, and writes it as
    ['hh:mm AM'] or ['hh:mm PM']; it raises [OverflowError] exactly when
    the day leaves the years 1 to 9999. *)
Theorem adjust_time_on_12h (hours minutes n : Z) :
  0 <= hours < 24 -> 0 <= minutes < 60 ->
  adjust_time (formatted_12h hours minutes) n
  = let t := hours * 60 + minutes + n in
    let ord := ordinal_1900_01_01 + t `div` 1440 in
    if (1 <=? ord) && (ord <=? MAXORDINAL)
    then Ok (strftime_I_M_p (ord, t `mod` 1440))
    else Raise OverflowError.
Proof.
  intros Hh Hm. destruct (clock_of_minute hours minutes Hh Hm) as (Ht & Hd & Hmod).
  pose proof (forallb_seqZ _ _ _ formatted_12h_read (hours * 60 + minutes) ltac:(lia)) as R.
  cbv beta in R. rewrite Hd, Hmod in R. unfold reads_as in R.
  unfold adjust_time.
  destruct (strptime_I_M_p (upper (formatted_12h hours minutes))) as [[ord t]|e];
    [ | discriminate R ].
  apply andb_prop in R as [R1 R2]. apply Z.eqb_eq in R1, R2. subst ord t.
  cbn [mbind result_bind]. unfold timedelta_minutes.
  cbv zeta. unfold datetime_add. cbn [fst snd].
  destruct (999999999 <? Z.abs (n `div` 1440)) eqn:C; cbn [mbind result_bind].
  - apply Z.ltb_lt in C.
    destruct ((1 <=? ordinal_1900_01_01 + (hours * 60 + minutes + n) `div` 1440)
              && (ordinal_1900_01_01 + (hours * 60 + minutes + n) `div` 1440
                  <=? MAXORDINAL)) eqn:R; [ exfalso | reflexivity ].
    apply andb_prop in R as [R1 R2]. apply Z.leb_le in R1, R2.
    unfold ordinal_1900_01_01, MAXORDINAL in R1, R2.
    revert C R1 R2. Z.to_euclidean_division_equations. lia.
  - destruct ((1 <=? ordinal_1900_01_01 + (hours * 60 + minutes + n) `div` 1440)
              && (ordinal_1900_01_01 + (hours * 60 + minutes + n) `div` 1440
                  <=? MAXORDINAL)); reflexivity.
Qed.

Lemma adjust_time_on_12h_witness :
  0 <= 18 < 24 /\ 0 <= 37 < 60 /\
  adjust_time (formatted_12h 18 37) 9
  = let t := 18 * 60 + 37 + 9 in
    let ord := ordinal_1900_01_01 + t `div` 1440 in
    if (1 <=? ord) && (ord <=? MAXORDINAL)
    then Ok (strftime_I_M_p (ord, t `mod` 1440))
    else Raise OverflowError.
Proof.
  assert (H1 : 0 <= 18 < 24) by lia. assert (H2 : 0 <= 37 < 60) by lia.
  split; [ exact H1 | split; [ exact H2 | exact (adjust_time_on_12h 18 37 9 H1 H2) ] ].
Defined.

(** X16.  [adjust_time] accepts no other output of [getFormattedTime]:
    on the sentinel ['-----'] of a NaN time, and on every ['24h'] clock
    string, it raises [ValueError]. *)
Theorem adjust_time_needs_12h (hours minutes n : Z) :
  0 <= hours < 24 -> 0 <= minutes < 60 ->
  adjust_time (formatted_24h hours minutes) n = Raise ValueError /\
  adjust_time invalidTime n = Raise ValueError /\
  forall time format, math_isnan time = true ->
    (s ← getFormattedTime time format None;
     match s with FStr s => adjust_time s n | FNum _ => Raise TypeError end)
    = Raise ValueError.
Proof.
  intros Hh Hm. destruct (clock_of_minute hours minutes Hh Hm) as (Ht & Hd & Hmod).
  pose proof (forallb_seqZ _ _ _ formatted_24h_rejected (hours * 60 + minutes) ltac:(lia)) as R.
  cbv beta in R. rewrite Hd, Hmod in R. unfold rejects in R.
  split; [ | split ].
  - unfold adjust_time.
    destruct (strptime_I_M_p (upper (formatted_24h hours minutes))) as [d|[]];
      try discriminate R; reflexivity.
  - reflexivity.
  - intros time format Hnan. unfold getFormattedTime. rewrite Hnan. reflexivity.
Qed.

Lemma adjust_time_needs_12h_witness :
  0 <= 13 < 24 /\ 0 <= 30 < 60 /\
  adjust_time (formatted_24h 13 30) 5 = Raise ValueError /\
  adjust_time invalidTime 5 = Raise ValueError /\
  forall time format, math_isnan time = true ->
    (s ← getFormattedTime time format None;
     match s with FStr s => adjust_time s 5 | FNum _ => Raise TypeError end)
    = Raise ValueError.
Proof.
  assert (H1 : 0 <= 13 < 24) by lia. assert (H2 : 0 <= 30 < 60) by lia.
  split; [ exact H1 | split; [ exact H2 | exact (adjust_time_needs_12h 13 30 5 H1 H2) ] ].
Defined.

(** The string [getFormattedTime] returns under ['12h'] and under ['24h']
    is the one [formatted_12h] and [formatted_24h] describe. *)
Lemma getFormattedTime_clock (time : float) (format : string) (s : string) :
  (format = "12h" \/ format = "24h") ->
  getFormattedTime time format None = Ok (FStr s) ->
  s = invalidTime \/
  exists hours minutes,
    s = if String.eqb format "24h" then formatted_24h hours minutes
        else formatted_12h hours minutes.
Proof.
  intros Hf. unfold getFormattedTime.
  destruct (math_isnan time); [ intros [= <-]; now left | ].
  destruct Hf as [-> | ->]; cbn [String.eqb Ascii.eqb Bool.eqb]; intros H;
    inv_bind H as t E; inv_bind H as hours E1; inv_bind H as fh E2;
    inv_bind H as minutes E3; inv_bind H as sfx E4; injection H as <-;
    right; exists hours, minutes.
  - unfold formatted_12h, timeSuffixes in *.
    destruct (hours <? 12); cbn in E4; injection E4 as <-;
      now rewrite !string_app_assoc.
  - injection E4 as <-. unfold formatted_24h. now rewrite string_app_nil_r.
Qed.

End AdjustTime.

(** ** [julian] along the calendar *)

Section JulianDays.

Lemma julian_steps_2000_2100 :
  forallb (fun y => forallb (julian_month_steps y) (seqZ 1 12)) (seqZ 2000 101) = true.
Proof. vm_compute. reflexivity. Qed.

Lemma monthrange_days_Ok (year month n : Z) :
  monthrange_days year month = Ok n -> 1 <= month <= 12 /\ 28 <= n <= 31.
Proof.
  unfold monthrange_days.
  destruct ((1 <=? month) && (month <=? 12)) eqn:E; [ | discriminate ].
  apply andb_prop in E as [E1 E2]. apply Z.leb_le in E1, E2. intros [= <-].
  split; [ lia | ].
  assert (H : month = 1 \/ month = 2 \/ month = 3 \/ month = 4 \/ month = 5 \/
              month = 6 \/ month = 7 \/ month = 8 \/ month = 9 \/ month = 10 \/
              month = 11 \/ month = 12) by lia.
  destruct (isleap year);
    repeat (destruct H as [-> | H]; [ split; apply Z.leb_le; reflexivity | ]);
    subst; split; apply Z.leb_le; reflexivity.
Qed.

Lemma julian_month_lookup (year month n day : Z) :
  1 <= day <= n ->
  julian_month year month n !! Z.to_nat (day - 1) = Some (julian year month day).
Proof.
  intros H. unfold julian_month.
  rewrite lookup_app_l by (rewrite length_fmap, length_seqZ; lia).
  rewrite list_lookup_fmap, (lookup_seqZ_lt _ _ (Z.to_nat (day - 1))) by lia.
  cbn. f_equal. f_equal. lia.
Qed.

Lemma julian_month_lookup_last (year month n : Z) :
  0 <= n ->
  julian_month year month n !! Z.to_nat n
  = Some (let '(y', m', d') := next_day year month n in julian y' m' d').
Proof.
  intros H. unfold julian_month.
  rewrite lookup_app_r by (rewrite length_fmap, length_seqZ; lia).
  rewrite length_fmap, length_seqZ. now replace (Z.to_nat n - Z.to_nat n)%nat with 0%nat by lia.
Qed.

(** X17.  Along the calendar of the years 2000 to 2100, [julian] steps
    by exactly one from each day to the next, across the ends of months
    and years and across the 29th of February, whose presence
    [calendar.monthrange] decides: it returns without raising on both
    days and the second value is the first plus one. *)
Theorem julian_next_day (year month day n : Z) :
  2000 <= year <= 2100 ->
  monthrange_days year month = Ok n ->
  1 <= day <= n ->
  exists jd,
    julian year month day = Ok jd /\
    (let '(y', m', d') := next_day year month day in julian y' m' d')
    = Ok (jd + 1)%float.
Proof.
  intros Hy Hn Hd. destruct (monthrange_days_Ok _ _ _ Hn) as [Hm Hn'].
  pose proof (forallb_seqZ _ _ _ julian_steps_2000_2100 year ltac:(lia)) as S.
  cbv beta in S.
  pose proof (forallb_seqZ _ _ _ S month ltac:(lia)) as S'. clear S.
  unfold julian_month_steps in S'. rewrite Hn in S'. cbv zeta in S'.
  rewrite forallb_forall in S'.
  specialize (S' (Z.to_nat (day - 1))
                 ltac:(apply in_seq; lia)).
  unfold steps_by_one in S'.
  rewrite (julian_month_lookup year month n day Hd) in S'.
  destruct (julian year month day) as [jd|e] eqn:J; [ | discriminate S' ].
  exists jd. split; [ reflexivity | ].
  destruct (Z.eq_dec day n) as [-> | Hlt].
  - replace (S (Z.to_nat (n - 1))) with (Z.to_nat n) in S' by lia.
    rewrite julian_month_lookup_last in S' by lia.
    destruct (next_day year month n) as [[y' m'] d'].
    destruct (julian y' m' d') as [b|]; [ | discriminate S' ].
    apply FloatAxioms.Leibniz.eqb_spec in S'. now subst b.
  - replace (S (Z.to_nat (day - 1))) with (Z.to_nat (day + 1 - 1)) in S' by lia.
    rewrite (julian_month_lookup year month n (day + 1)) in S' by lia.
    unfold next_day. rewrite Hn.
    destruct (day <? n) eqn:C; [ | apply Z.ltb_ge in C; lia ].
    destruct (julian year month (day + 1)) as [b|]; [ | discriminate S' ].
    apply FloatAxioms.Leibniz.eqb_spec in S'. now subst b.
Qed.

Lemma julian_next_day_witness :
  2000 <= 2024 <= 2100 /\ monthrange_days 2024 2 = Ok 29 /\ 1 <= 29 <= 29 /\
  exists jd,
    julian 2024 2 29 = Ok jd /\
    (let '(y', m', d') := next_day 2024 2 29 in julian y' m' d') = Ok (jd + 1)%float.
Proof.
  assert (H1 : 2000 <= 2024 <= 2100) by lia.
  assert (H2 : monthrange_days 2024 2 = Ok 29) by reflexivity.
  assert (H3 : 1 <= 29 <= 29) by lia.
  split; [ exact H1 | split; [ exact H2 | split; [ exact H3 | ] ] ].
  exact (julian_next_day 2024 2 29 29 H1 H2 H3).
Defined.

End JulianDays.
